(** * The titer dashboard: chart configuration and data transformation

    A shallow embedding of [dashboard.py].  The script is a Streamlit page:
    every widget event re-runs it top to bottom against a session store.
    The embedding follows the script function by function.

    Three libraries are called by the script and are not part of it:
    - pandas: the calls that are used (column lookup, [between], [groupby],
      [size], [agg] with ['mean'], [reset_index], [min], [max], [nunique])
      are modelled on tables of cells with their documented behaviour on
      missing values and missing columns; what pandas computes in floating
      point or leaves to its version (the rounding of a mean, the least and
      the greatest of a column of text) is an interface ([Backend]);
    - Streamlit: the widgets are an interface ([Toolkit]) the script is
      parameterised by, so that every result holds for whatever the widgets
      return or raise;
    - plotly express: a chart constructor checks that the columns it is given
      exist and that the facets fit in one row, and returns the figure
      description. *)

From Stdlib Require Import List String Ascii Bool ZArith QArith Lia Permutation
  Sorted Floats.
Import ListNotations.
Open Scope string_scope.
Open Scope list_scope.

Set Implicit Arguments.

(* ------------------------------------------------------------------------- *)
(** ** Exceptions *)

(** The Python exceptions that the modelled calls raise.  All of them derive
    from [Exception]. *)
Inductive exn : Type :=
| KeyError (name : string)
| ValueError
| TypeError
| AttributeError
| IndexError
| UnboundLocalError
| StreamlitAPIException.

Inductive result (A : Type) : Type :=
| OK (a : A)
| Raise (e : exn).

Arguments OK {A} a.
Arguments Raise {A} e.

Definition rbind {A B} (c : result A) (k : A -> result B) : result B :=
  match c with
  | OK a => k a
  | Raise e => Raise e
  end.

Declare Scope result_scope.
Delimit Scope result_scope with result.
Notation "x <- c ;; k" := (rbind c (fun x => k))
  (at level 61, c at next level, right associativity) : result_scope.

Fixpoint mapM {A B} (f : A -> result B) (l : list A) : result (list B) :=
  match l with
  | [] => OK []
  | a :: l' =>
      (b <- f a ;;
       bs <- mapM f l' ;;
       OK (b :: bs))%result
  end.

(* ------------------------------------------------------------------------- *)
(** ** Tables *)

(** A cell of a table.  [NA] is a missing value (NaN, NaT).  A number is
    given by its value, a rational: every float64 that is a number has one.
    A timestamp is a number of nanoseconds since the epoch.  Columns of
    booleans are not modelled. *)
Inductive cell : Type :=
| NA
| Num (q : Q)
| Str (s : string)
| Date (t : Z).

Definition Q_eq_dec (p q : Q) : {p = q} + {p <> q}.
Proof. decide equality; [apply Pos.eq_dec | apply Z.eq_dec]. Defined.

Definition cell_eq_dec (a b : cell) : {a = b} + {a <> b}.
Proof.
  decide equality; [apply Q_eq_dec | apply string_dec | apply Z.eq_dec].
Defined.

(** Numbers are compared by value: a cell is put in lowest terms before it
    is used as a key. *)
Definition canon (c : cell) : cell :=
  match c with
  | Num q => Num (Qred q)
  | _ => c
  end.

Definition is_na (c : cell) : bool :=
  match c with
  | NA => true
  | _ => false
  end.

Definition row := list cell.

Record DataFrame : Type := mkDataFrame {
  columns : list string;
  rows : list row
}.

Fixpoint index_of (name : string) (cols : list string) : option nat :=
  match cols with
  | [] => None
  | c :: cols' =>
      if String.eqb name c then Some O
      else option_map S (index_of name cols')
  end.

(** [df[name]]: the position of a column, [KeyError] when there is none. *)
Definition loc (df : DataFrame) (name : string) : result nat :=
  match index_of name (columns df) with
  | Some i => OK i
  | None => Raise (KeyError name)
  end.

Definition at_col (i : nat) (r : row) : cell := nth i r NA.

Definition series (df : DataFrame) (i : nat) : list cell :=
  map (at_col i) (rows df).

(** The dtype of a column, read off its cells: numbers (float64, also when
    every cell is missing), timestamps (datetime64) or anything else
    (object). *)
Inductive dtype : Type := float64 | datetime64 | object.

Definition is_num_or_na (c : cell) : bool :=
  match c with NA | Num _ => true | _ => false end.

Definition is_date_or_na (c : cell) : bool :=
  match c with NA | Date _ => true | _ => false end.

Definition dtype_of (cs : list cell) : dtype :=
  if forallb is_num_or_na cs then float64
  else if forallb is_date_or_na cs then datetime64
  else object.

(* ------------------------------------------------------------------------- *)
(** ** Ordering of cells and keys *)

Definition cell_compare (a b : cell) : comparison :=
  match a, b with
  | NA, NA => Eq
  | NA, _ => Lt
  | _, NA => Gt
  | Num p, Num q => Qcompare p q
  | Num _, _ => Lt
  | _, Num _ => Gt
  | Str s, Str t => String.compare s t
  | Str _, _ => Lt
  | _, Str _ => Gt
  | Date s, Date t => Z.compare s t
  end.

Definition key := list cell.

Fixpoint key_compare (k1 k2 : key) : comparison :=
  match k1, k2 with
  | [], [] => Eq
  | [], _ :: _ => Lt
  | _ :: _, [] => Gt
  | a :: k1', b :: k2' =>
      match cell_compare a b with
      | Eq => key_compare k1' k2'
      | c => c
      end
  end.

Definition key_eq_dec : forall k1 k2 : key, {k1 = k2} + {k1 <> k2} :=
  list_eq_dec cell_eq_dec.

(* ------------------------------------------------------------------------- *)
(** ** Date filtering *)

Definition ns_per_day : Z := 86400000000000.

(** [.dt.date] of a timestamp: the calendar day, the time of day dropped. *)
Definition date_of (t : Z) : Z := (t / ns_per_day)%Z.

(** A date that may be missing ([NaT]). *)
Definition date := option Z.

(** [Series.between(lo, hi)] on calendar days, both ends included.  A missing
    value is never between anything. *)
Definition between (lo hi : date) (c : cell) : bool :=
  match c, lo, hi with
  | Date t, Some l, Some h => (l <=? date_of t)%Z && (date_of t <=? h)%Z
  | _, _, _ => false
  end.

(** [df['Testdate'].dt]: the column has to exist and hold timestamps. *)
Definition testdate_loc (df : DataFrame) : result nat :=
  (i <- loc df "Testdate" ;;
   if forallb is_date_or_na (series df i) then OK i
   else Raise AttributeError)%result.

(** [df[df['Testdate'].dt.date.between(lo, hi)]] *)
Definition filter_by_date (df : DataFrame) (lo hi : date) : result DataFrame :=
  (i <- testdate_loc df ;;
   OK (mkDataFrame (columns df)
         (filter (fun r => between lo hi (at_col i r)) (rows df))))%result.

Fixpoint stamps_of (cs : list cell) : list Z :=
  match cs with
  | [] => []
  | Date t :: cs' => t :: stamps_of cs'
  | _ :: cs' => stamps_of cs'
  end.

(** [Series.min()] and [Series.max()] of a column of timestamps: missing
    values are skipped, and the result is missing ([NaT]) when the column
    has no value at all. *)
Definition stamp_min (ts : list Z) : option Z :=
  match ts with
  | [] => None
  | t :: ts' => Some (fold_left Z.min ts' t)
  end.

Definition stamp_max (ts : list Z) : option Z :=
  match ts with
  | [] => None
  | t :: ts' => Some (fold_left Z.max ts' t)
  end.

(** [df['Testdate'].min().date()] and [df['Testdate'].max().date()] *)
Definition date_bounds (df : DataFrame) : result (date * date) :=
  (i <- testdate_loc df ;;
   let ts := stamps_of (series df i) in
   OK (option_map date_of (stamp_min ts),
       option_map date_of (stamp_max ts)))%result.

(* ------------------------------------------------------------------------- *)
(** ** Grouping *)

(** The key of a row for the grouping columns at positions [ixs]; a row
    with a missing value in a grouping column has no key and is left out
    of every group ([dropna=True], the default of [groupby]). *)
Definition key_of (ixs : list nat) (r : row) : option key :=
  let k := map (fun i => at_col i r) ixs in
  if existsb is_na k then None else Some (map canon k).

Definition group := (key * list row)%type.

Fixpoint add_to_group (k : key) (r : row) (gs : list group) : list group :=
  match gs with
  | [] => [(k, [r])]
  | (k', rs) :: gs' =>
      if key_eq_dec k k' then (k', rs ++ [r]) :: gs'
      else (k', rs) :: add_to_group k r gs'
  end.

Definition add_row (ixs : list nat) (gs : list group) (r : row) : list group :=
  match key_of ixs r with
  | Some k => add_to_group k r gs
  | None => gs
  end.

Definition group_rows (ixs : list nat) (rs : list row) : list group :=
  fold_left (add_row ixs) rs [].

(** Groups come out in the order of their keys ([sort=True]). *)
Fixpoint insert_group (g : group) (gs : list group) : list group :=
  match gs with
  | [] => [g]
  | g' :: gs' =>
      match key_compare (fst g) (fst g') with
      | Gt => g' :: insert_group g gs'
      | _ => g :: gs
      end
  end.

Definition sort_groups (gs : list group) : list group :=
  fold_right insert_group [] gs.

(** [df.groupby(group_by)]: the grouping columns have to exist.  One reading
    of pandas is left out: a list of names that is as long as the table and
    holds a name that is no column is taken by pandas for an array of
    labels, one per row.  The results below that rest on the [KeyError] are
    stated for lists of another length. *)
Definition groupby (df : DataFrame) (group_by : list string)
  : result (list group) :=
  (ixs <- mapM (loc df) group_by ;;
   OK (sort_groups (group_rows ixs (rows df))))%result.

Fixpoint nodupb (l : list string) : bool :=
  match l with
  | [] => true
  | a :: l' => negb (existsb (String.eqb a) l') && nodupb l'
  end.

(** [reset_index]: the keys become the leading columns; a name that is
    already there cannot be inserted. *)
Definition reset_index (names : list string) (values : list string)
  (body : list row) : result DataFrame :=
  if nodupb (names ++ values) then OK (mkDataFrame (names ++ values) body)
  else Raise ValueError.

Definition count_cell (n : nat) : cell := Num (inject_Z (Z.of_nat n)).

(** [df.groupby(group_by).size().reset_index(name=name)] *)
Definition groupby_size (df : DataFrame) (group_by : list string)
  (name : string) : result DataFrame :=
  (gs <- groupby df group_by ;;
   reset_index group_by [name]
     (map (fun g : group => fst g ++ [count_cell (List.length (snd g))]) gs))%result.

(* ------------------------------------------------------------------------- *)
(** ** The parts of pandas that are left open *)

(** Reading the delimited text, parsing one date of the form
    day/month/year, the mean of a list of float64 numbers and of a list of
    timestamps, with their rounding, and the least and the greatest cell of
    a column that holds text are the library's own business; the script is
    read for any such six. *)
Class Backend : Type := {
  read_csv : string -> string -> result DataFrame;
  strptime : string -> option Z;
  datetime_mean : list Z -> Z;
  float_mean : list Q -> Q;
  object_min : list cell -> result cell;
  object_max : list cell -> result cell
}.

(* ------------------------------------------------------------------------- *)
(** ** Means *)

Fixpoint nums_of (cs : list cell) : list Q :=
  match cs with
  | [] => []
  | Num q :: cs' => q :: nums_of cs'
  | _ :: cs' => nums_of cs'
  end.

Definition Qsum (qs : list Q) : Q := fold_right Qplus 0%Q qs.


(** ['mean'] over the cells of one group: missing values are skipped
    ([skipna]), and a group without any value has a missing mean.  The mean
    of numbers is taken in float64, over the values in the order of the
    rows. *)
Definition mean_cell `{Backend} (dt : dtype) (cs : list cell) : cell :=
  match dt with
  | float64 =>
      match nums_of cs with
      | [] => NA
      | qs => Num (float_mean qs)
      end
  | datetime64 =>
      match stamps_of cs with
      | [] => NA
      | ts => Date (datetime_mean ts)
      end
  | object => NA
  end.

(** The column to average has to exist and must not hold text. *)
Definition mean_column (df : DataFrame) (name : string)
  : result (nat * dtype) :=
  (i <- loc df name ;;
   match dtype_of (series df i) with
   | object => Raise TypeError
   | dt => OK (i, dt)
   end)%result.

(** [df.groupby(group_by).agg({c: 'mean' for c in cols}).reset_index()] *)
Definition groupby_agg_mean `{Backend} (df : DataFrame)
  (group_by : list string) (cols : list string) : result DataFrame :=
  (gs <- groupby df group_by ;;
   vs <- mapM (mean_column df) cols ;;
   reset_index group_by cols
     (map (fun g : group =>
             fst g ++ map (fun v : nat * dtype =>
                             mean_cell (snd v) (map (at_col (fst v)) (snd g)))
                          vs)
          gs))%result.

(* ------------------------------------------------------------------------- *)
(** ** Reductions used by the metrics *)

Definition cell_min (a b : cell) : cell :=
  match cell_compare a b with Gt => b | _ => a end.

Definition cell_max (a b : cell) : cell :=
  match cell_compare a b with Lt => b | _ => a end.

Definition present (cs : list cell) : list cell :=
  filter (fun c => negb (is_na c)) cs.

(** [Series.min()] / [Series.max()]: missing values are skipped in a column
    of numbers or timestamps; a column that holds text is handed to
    [text]. *)
Definition reduce (f : cell -> cell -> cell)
  (text : list cell -> result cell) (cs : list cell) : result cell :=
  match dtype_of cs with
  | object => text cs
  | _ =>
      match present cs with
      | [] => OK NA
      | c :: cs' => OK (fold_left f cs' c)
      end
  end.

(** [Series.nunique()]: the number of distinct values that are present. *)
Definition nunique (cs : list cell) : nat :=
  List.length (nodup cell_eq_dec (map canon (present cs))).

(* ------------------------------------------------------------------------- *)
(** ** Figures *)

Inductive chart_kind : Type := Line | Scatter | Bar | Box | Violin.

Record figure : Type := mkFigure {
  fig_kind : chart_kind;
  fig_data : DataFrame;
  fig_x : string;
  fig_y : string;
  fig_color : string;
  fig_facet_col : option string;
  fig_title : option string;
  fig_height : option Z
}.

Definition has_column (df : DataFrame) (name : string) : bool :=
  existsb (String.eqb name) (columns df).

(** The panels of a facet are laid out in one row, one per value of the
    facet column; at the default spacing the row has room for 51. *)
Definition facet_room : nat := 51.

Definition has_facet (df : DataFrame) (fac : option string) : bool :=
  match fac with
  | Some c =>
      match index_of c (columns df) with
      | Some i => (nunique (series df i) <=? facet_room)%nat
      | None => false
      end
  | None => true
  end.

(** A plotly express constructor: every column it is asked to draw has to
    be a column of the table, and the facets have to fit. *)
Definition px (k : chart_kind) (df : DataFrame) (x y color : string)
  (facet_col : option string) : result figure :=
  if has_column df x && has_column df y && has_column df color
     && has_facet df facet_col
  then OK (mkFigure k df x y color facet_col None None)
  else Raise ValueError.

Definition update_layout (fig : figure) (title : string) (height : Z)
  : figure :=
  mkFigure (fig_kind fig) (fig_data fig) (fig_x fig) (fig_y fig)
    (fig_color fig) (fig_facet_col fig) (Some title) (Some height).

Definition line_chart (df : DataFrame) (x_axis y_axis color_by : string)
  : result figure := px Line df x_axis y_axis color_by None.

Definition scatter_plot (df : DataFrame) (x_axis y_axis color_by : string)
  : result figure := px Scatter df x_axis y_axis color_by None.

Definition box_plot (df : DataFrame) (x_axis y_axis color_by : string)
  : result figure := px Box df x_axis y_axis color_by None.

Definition violin_plot (df : DataFrame) (x_axis y_axis color_by : string)
  : result figure := px Violin df x_axis y_axis color_by None.

Definition bar_chart (df : DataFrame) (x_axis y_axis color_by : string)
  : result figure :=
  let fac := if negb (String.eqb x_axis "Assay") then Some "Assay" else None in
  px Bar df x_axis y_axis color_by fac.

(* ------------------------------------------------------------------------- *)
(** ** The widget toolkit *)

(** What the page asks of Streamlit during one run of the script.  A widget
    is identified by its label, its arguments and its key; it answers with
    its current value or raises.  [file_uploader] answers with the text of
    the uploaded file, when there is one. *)
Class Toolkit : Type := {
  checkbox : string -> bool -> result bool;
  selectbox : string -> list string -> nat -> option string -> result string;
  multiselect : string -> list string -> option (list string) ->
                option string -> result (list string);
  date_slider_widget : string -> date -> date -> string ->
                       result (date * date);
  slider : string -> Z -> Z -> Z -> option string -> result Z;
  text_input : string -> string -> option string -> result string;
  plotly_chart : figure -> result unit;
  file_uploader : string -> option string
}.

(** What a run of the script leaves on the page. *)
Inductive element : Type :=
| Toast (msg : string)
| Metric (label : string) (value : cell)
| Plot (fig : figure)
| Warning (msg : string).

(** The state a run works on: the session store, which outlives the run,
    and the page.  ['loaded_data' not in st.session_state] is [None];
    the key bound to Python's [None] is [Some None]. *)
Record world : Type := mkWorld {
  loaded_data : option (option DataFrame);
  screen : list element
}.

(** Statements of the script: they may change the world and may raise. *)
Definition M (A : Type) : Type := world -> result A * world.

Definition ret {A} (a : A) : M A := fun w => (OK a, w).

Definition bind {A B} (c : M A) (k : A -> M B) : M B :=
  fun w =>
    match c w with
    | (OK a, w') => k a w'
    | (Raise e, w') => (Raise e, w')
    end.

Definition lift {A} (c : result A) : M A := fun w => (c, w).

Definition emit (e : element) : M unit :=
  fun w => (OK tt, mkWorld (loaded_data w) (screen w ++ [e])).

Definition get_loaded_data : M (option (option DataFrame)) :=
  fun w => (OK (loaded_data w), w).

Definition set_loaded_data (v : option DataFrame) : M unit :=
  fun w => (OK tt, mkWorld (Some v) (screen w)).

(** [try: body except Exception as e: handler] *)
Definition try_except (body : M unit) (handler : M unit) : M unit :=
  fun w =>
    match body w with
    | (OK a, w') => (OK a, w')
    | (Raise _, w') => handler w'
    end.

Declare Scope script_scope.
Delimit Scope script_scope with script.
Notation "x <- c ;; k" := (bind c (fun x => k))
  (at level 61, c at next level, right associativity) : script_scope.
Notation "c ;;; k" := (bind c (fun _ => k))
  (at level 61, right associativity) : script_scope.

(* ------------------------------------------------------------------------- *)
(** ** The script *)

Definition lower_ascii (c : ascii) : ascii :=
  let n := nat_of_ascii c in
  if (65 <=? n)%nat && (n <=? 90)%nat then ascii_of_nat (n + 32) else c.

(** [str.lower()] *)
Fixpoint lower (s : string) : string :=
  match s with
  | EmptyString => EmptyString
  | String c s' => String (lower_ascii c) (lower s')
  end.

(** [df.loc[:, mask]] on one row *)
Fixpoint select_mask {A} (mask : list bool) (l : list A) : list A :=
  match mask, l with
  | true :: mask', a :: l' => a :: select_mask mask' l'
  | false :: mask', _ :: l' => select_mask mask' l'
  | _, _ => []
  end.

Fixpoint replace_at {A} (i : nat) (v : A) (l : list A) : list A :=
  match i, l with
  | _, [] => []
  | O, _ :: l' => v :: l'
  | S i', a :: l' => a :: replace_at i' v l'
  end.

(** The texts that pandas reads as a missing date. *)
Definition nat_strings : list string :=
  ["NaT"; "nat"; "NAT"; "nan"; "NaN"; "NAN"].

Definition is_nat_string (s : string) : bool :=
  (String.length s =? 0)%nat || existsb (String.eqb s) nat_strings.

(** [pd.to_datetime(..., format='%d/%m/%Y')] on one cell: text has to be a
    date of that form, a missing value stays missing. *)
Definition to_datetime `{Backend} (c : cell) : result cell :=
  match c with
  | NA => OK NA
  | Str s =>
      if is_nat_string s then OK NA
      else match strptime s with
           | Some t => OK (Date t)
           | None => Raise ValueError
           end
  | Date t => OK (Date t)
  | Num _ => Raise ValueError
  end.

Section Script.

Context {backend : Backend} {toolkit : Toolkit}.

(** [load_data] (lines 8-22) *)
Definition load_data (uploaded_file : string) : result DataFrame :=
  (df <- read_csv uploaded_file ";" ;;
   let mask := map (fun c => negb (String.prefix "Unnamed" c)) (columns df) in
   let df := mkDataFrame (select_mask mask (columns df))
               (map (select_mask mask) (rows df)) in
   i <- loc df "Testdate" ;;
   parsed <- mapM to_datetime (series df i) ;;
   OK (mkDataFrame (columns df)
         (map (fun rc : row * cell => replace_at i (snd rc) (fst rc))
              (combine (rows df) parsed))))%result.

(** [select_param] (lines 24-49) *)
Definition select_param (key : string) (x y : nat) : result (string * string) :=
  (x_axis <- selectbox "Select x-axis"
               ["Age Days"; "Age Weeks"; "Testdate"; "Assay"]
               x (Some (key ++ "_x_axis")%string) ;;
   y_axis <- selectbox "Select y-axis"
               ["Mean Titer"; "Min Titer"; "Max Titer"; "GMT"; "Results Count"]
               y (Some (key ++ "_y_axis")%string) ;;
   OK (x_axis, y_axis))%result.

(** The [options] of [select_grouping] (lines 65-67) *)
Definition grouping_options (y_axis : string) : list string :=
  let options := ["Testdate"; "GMT"; "Assay"; "Result"] in
  if String.eqb y_axis "Results Count" then options ++ ["Result"]
  else options.

(** [select_grouping] (lines 51-80) *)
Definition select_grouping (key : string) (group : option (list string))
  (color : nat) (y_axis : string) : result (list string * string) :=
  (let options := grouping_options y_axis in
   group_by <- multiselect "Group data by" options group
                 (Some (key ++ "_group_by")%string) ;;
   color_by <- selectbox "Color data by" ["Assay"; "Result"] color
                 (Some (key ++ "_color_by")%string) ;;
   OK (group_by, color_by))%result.

(** [date_slider] (lines 82-110) *)
Definition date_slider (df : DataFrame) (key : string) (x_axis : string)
  : result (date * date) :=
  (bounds <- date_bounds df ;;
   let min_date := fst bounds in
   let max_date := snd bounds in
   if String.eqb x_axis "Testdate"
   then date_slider_widget "Select Date Range" min_date max_date key
   else OK (min_date, max_date))%result.

Definition is_empty {A} (l : list A) : bool :=
  match l with
  | [] => true
  | _ => false
  end.

(** Lines 138-142 of [create_chart] *)
Definition aggregate (df : DataFrame) (group_by : list string)
  (y_axis : string) : result DataFrame :=
  if negb (is_empty group_by) then
    if String.eqb y_axis "Results Count"
    then groupby_size df group_by "Results Count"
    else groupby_agg_mean df group_by
           ["Age Days"; "Age Weeks"; "Min Titer"; "Max Titer"; "Mean Titer"]
  else OK df.

(** Lines 127-145 of [create_chart]: the figure of the block, when the
    chart is shown. *)
Definition create_chart_figure (df : DataFrame) (chart : string) (x y : nat)
  (group_by : option (list string)) (color_by : nat)
  (chart_func : DataFrame -> string -> string -> string -> result figure)
  : result (option figure) :=
  (show_chart <- checkbox ("Show " ++ lower chart)%string true ;;
   if (show_chart : bool) then
     axes <- select_param (lower chart) x y ;;
     let x_axis := fst axes in
     let y_axis := snd axes in
     grouping <- select_grouping (lower chart) group_by color_by y_axis ;;
     let group_by := fst grouping in
     let color_by := snd grouping in
     range <- date_slider df (lower chart) x_axis ;;
     chart_title <- text_input "Chart Title"
                      (chart ++ ": " ++ y_axis ++ " vs. " ++ x_axis)%string
                      (Some (lower chart ++ "title")%string) ;;
     chart_height <- slider "Chart Height" 300 700 500
                       (Some (lower chart ++ "height")%string) ;;
     df <- filter_by_date df (fst range) (snd range) ;;
     df <- aggregate df group_by y_axis ;;
     fig <- chart_func df x_axis y_axis color_by ;;
     OK (Some (update_layout fig chart_title chart_height))
   else OK None)%result.

Definition show (ofig : option figure) : M unit :=
  match ofig with
  | Some fig => (lift (plotly_chart fig) ;;; emit (Plot fig))%script
  | None => ret tt
  end.

(** [create_chart] (lines 113-149) *)
Definition create_chart (df : DataFrame) (chart : string) (x y : nat)
  (group_by : option (list string)) (color_by : nat)
  (chart_func : DataFrame -> string -> string -> string -> result figure)
  : M unit :=
  try_except
    (ofig <- lift (create_chart_figure df chart x y group_by color_by
                     chart_func) ;;
     show ofig)%script
    (emit (Warning "Sorry, an error is encountered. Please check your inputs.")).

(** Lines 174-179 of [custom_chart]: the table and the y-axis that go on. *)
Definition custom_aggregate (df : DataFrame) (group_by : list string)
  (y_axis : string) : result (DataFrame * string) :=
  if negb (is_empty group_by) then
    if String.eqb y_axis "Result"
    then (df <- groupby_size df group_by "Results Count" ;;
          OK (df, "Results Count"))%result
    else (df <- groupby_agg_mean df group_by [y_axis] ;;
          OK (df, y_axis))%result
  else OK (df, y_axis).

(** Lines 181-190 of [custom_chart]; [fig] stays unbound when the chart
    type is none of the five. *)
Definition custom_dispatch (chart : string) (df : DataFrame)
  (x_axis y_axis color_by : string) : result figure :=
  if String.eqb chart "Line Chart" then line_chart df x_axis y_axis color_by
  else if String.eqb chart "Bar Chart" then bar_chart df x_axis y_axis color_by
  else if String.eqb chart "Box Plot" then box_plot df x_axis y_axis color_by
  else if String.eqb chart "Violin Plot"
       then violin_plot df x_axis y_axis color_by
  else if String.eqb chart "Scatter Plot"
       then scatter_plot df x_axis y_axis color_by
  else Raise UnboundLocalError.

(** Lines 159-191 of [custom_chart] *)
Definition custom_chart_figure (df : DataFrame) : result (option figure) :=
  (let all_columns := columns df in
   show_chart <- checkbox "Add custom chart" false ;;
   if (show_chart : bool) then
     chart <- selectbox "Select Chart Type"
                ["Line Chart"; "Scatter Plot"; "Bar Chart"; "Box Plot";
                 "Violin Plot"] 0 None ;;
     x_axis <- selectbox "Select x-axis" all_columns 0 (Some "custom_x_axis") ;;
     y_axis <- selectbox "Select y-axis" all_columns 0 (Some "custom_y_axis") ;;
     group_by <- multiselect "Group data by" all_columns None
                   (Some "custom_group_by") ;;
     color_by <- selectbox "Color data by" all_columns 0
                   (Some "custom_color_by") ;;
     range <- date_slider df "custom" x_axis ;;
     chart_title <- text_input "Chart Title"
                      (chart ++ ": " ++ y_axis ++ " vs. " ++ x_axis)%string
                      None ;;
     chart_height <- slider "Chart Height" 300 800 500 None ;;
     df <- filter_by_date df (fst range) (snd range) ;;
     agg <- custom_aggregate df group_by y_axis ;;
     let df := fst agg in
     let y_axis := snd agg in
     fig <- custom_dispatch chart df x_axis y_axis color_by ;;
     OK (Some (update_layout fig chart_title chart_height))
   else OK None)%result.

(** [custom_chart] (lines 151-195) *)
Definition custom_chart (df : DataFrame) : M unit :=
  try_except
    (ofig <- lift (custom_chart_figure df) ;;
     show ofig)%script
    (emit (Warning
             "Sorry, the chart cannot be generated. Please check your inputs.")).

(** The metrics (lines 243-247) *)
Definition metrics (df : DataFrame) : M unit :=
  (emit (Metric "Total Number of Samples" (count_cell (List.length (rows df)))) ;;;
   i <- lift (loc df "Assay") ;;
   emit (Metric "Number of Assays" (count_cell (nunique (series df i)))) ;;;
   j <- lift (loc df "GMT") ;;
   lo <- lift (reduce cell_min object_min (series df j)) ;;
   emit (Metric "Minimum GMT" lo) ;;;
   hi <- lift (reduce cell_max object_max (series df j)) ;;
   emit (Metric "Maximum GMT" hi))%script.

(** The chart blocks (lines 252-263) *)
Definition charts (df : DataFrame) : M unit :=
  (create_chart df "Box plot" 2 3 None 0 box_plot ;;;
   create_chart df "Violin plot" 2 3 None 0 violin_plot ;;;
   create_chart df "Line chart" 2 3 (Some ["Testdate"; "GMT"; "Assay"]) 0
     line_chart ;;;
   create_chart df "Bar chart" 2 4 (Some ["Assay"; "Testdate"; "Result"]) 1
     bar_chart ;;;
   create_chart df "Scatter plot" 0 3 (Some ["Testdate"; "GMT"; "Assay"]) 0
     scatter_plot ;;;
   custom_chart df)%script.

(** The upload step (lines 229-236) *)
Definition upload : M unit :=
  (known <- get_loaded_data ;;
   match known with
   | None => set_loaded_data None
   | Some _ => ret tt
   end ;;;
   let uploaded_file := file_uploader "Choose a CSV file" in
   stored <- get_loaded_data ;;
   match uploaded_file, stored with
   | Some f, Some None =>
       df <- lift (load_data f) ;;
       set_loaded_data (Some df) ;;;
       emit (Toast "File uploaded successfully!")
   | _, _ => ret tt
   end)%script.

(** The dashboard (lines 238-263) *)
Definition dashboard : M unit :=
  (stored <- get_loaded_data ;;
   match stored with
   | Some (Some df) =>
       emit (Toast "Loading dashboard...") ;;;
       metrics df ;;;
       charts df
   | _ => ret tt
   end)%script.

(** One run of the script, top to bottom. *)
Definition script : M unit := (upload ;;; dashboard)%script.

End Script.

(** A run starts on an empty page with the session store of the run before;
    an exception that reaches the top ends the run and leaves the store as
    it is. *)
Definition rerun (backend : Backend) (store : option (option DataFrame))
  (toolkit : Toolkit) : option (option DataFrame) :=
  loaded_data (snd (script (mkWorld store []))).

(** A session: one run per event, each with the widgets as they stand. *)
Definition session (backend : Backend) (store : option (option DataFrame))
  (events : list Toolkit) : option (option DataFrame) :=
  fold_left (rerun backend) events store.

(* ------------------------------------------------------------------------- *)
(** ** Widgets as they stand *)

(** The widgets of a first run: nothing has been touched, and each widget
    answers with its default.  A default that is not among the options is
    refused, and so is a range slider whose bounds are missing or whose
    lower bound is not below the upper one. *)
Definition default_selectbox (options : list string) (index : nat)
  : result string :=
  match nth_error options index with
  | Some o => OK o
  | None => Raise StreamlitAPIException
  end.

Definition default_multiselect (options : list string)
  (default : option (list string)) : result (list string) :=
  match default with
  | None => OK []
  | Some d =>
      if forallb (fun v => existsb (String.eqb v) options) d then OK d
      else Raise StreamlitAPIException
  end.

Definition default_date_slider (lo hi : date) : result (date * date) :=
  match lo, hi with
  | Some l, Some h =>
      if (l <? h)%Z then OK (lo, hi) else Raise StreamlitAPIException
  | _, _ => Raise StreamlitAPIException
  end.

Definition first_render (uploaded : option string) : Toolkit := {|
  checkbox := fun _ value => OK value;
  selectbox := fun _ options index _ => default_selectbox options index;
  multiselect := fun _ options default _ => default_multiselect options default;
  date_slider_widget := fun _ lo hi _ => default_date_slider lo hi;
  slider := fun _ _ _ value _ => OK value;
  text_input := fun _ value _ => OK value;
  plotly_chart := fun _ => OK tt;
  file_uploader := fun _ => uploaded
|}.

(** A multiselect answers with the options at the positions that were
    picked, in the order they were picked. *)
Definition pick (options : list string) (ixs : list nat)
  : result (list string) :=
  mapM (fun i => match nth_error options i with
                 | Some o => OK o
                 | None => Raise IndexError
                 end) ixs.

(** The widgets of [base], with the positions [ixs] picked in every
    multiselect. *)
Definition picking (base : Toolkit) (ixs : list nat) : Toolkit := {|
  checkbox := @checkbox base;
  selectbox := @selectbox base;
  multiselect := fun _ options _ _ => pick options ixs;
  date_slider_widget := @date_slider_widget base;
  slider := @slider base;
  text_input := @text_input base;
  plotly_chart := @plotly_chart base;
  file_uploader := @file_uploader base
|}.

(* ------------------------------------------------------------------------- *)
(** ** Sample data *)

Definition day (d : Z) : Z := (d * ns_per_day)%Z.

Definition schema : list string :=
  ["Testdate"; "Assay"; "Result"; "GMT"; "Age Days"; "Age Weeks";
   "Min Titer"; "Max Titer"; "Mean Titer"].

Definition num (z : Z) : cell := Num (inject_Z z).

(** Two samples of one assay on 01/01/2023 (day 19358), the second taken
    at noon. *)
Definition two_rows : DataFrame :=
  mkDataFrame schema
    [ [Date (day 19358); Str "A"; Str "Pos"; num 10;
       num 14; num 2; num 4; num 6; num 5];
      [Date (day 19358 + 43200000000000); Str "A"; Str "Neg"; num 20;
       num 28; num 4; num 6; num 8; num 7] ].

(** The same, with a third sample whose assay was left blank. *)
Definition blank_assay : DataFrame :=
  mkDataFrame schema
    (rows two_rows ++
     [ [Date (day 19360); NA; Str "Pos"; num 30;
        num 7; num 1; num 2; num 4; num 3] ]).

(** The same, with a third sample whose test date was left blank. *)
Definition blank_date : DataFrame :=
  mkDataFrame schema
    (rows two_rows ++
     [ [NA; Str "B"; Str "Pos"; num 30;
        num 7; num 1; num 2; num 4; num 3] ]).

(** Two samples of one assay, on 01/01/2023 and on the day after. *)
Definition two_days : DataFrame :=
  mkDataFrame schema
    [ [Date (day 19358); Str "A"; Str "Pos"; num 10;
       num 14; num 2; num 4; num 6; num 5];
      [Date (day 19359); Str "A"; Str "Neg"; num 20;
       num 28; num 4; num 6; num 8; num 7] ].

(** A table without the Result column: two samples, a day apart. *)
Definition no_result : DataFrame :=
  mkDataFrame
    ["Testdate"; "Assay"; "GMT"; "Age Days"; "Age Weeks";
     "Min Titer"; "Max Titer"; "Mean Titer"]
    [ [Date (day 19358); Str "A"; num 10; num 14; num 2; num 4; num 6; num 5];
      [Date (day 19359); Str "A"; num 20; num 28; num 4; num 6; num 8; num 7] ].



(** A table that has a column named "Results Count" of its own. *)
Definition with_count_column : DataFrame :=
  mkDataFrame ["Testdate"; "Assay"; "Results Count"]
    [ [Date (day 19358); Str "A"; num 4];
      [Date (day 19358); Str "A"; num 6] ].

(** Float64 arithmetic, for the sample backends.  A rational is taken to
    the nearest float64, and a float64 that is a number back to its
    value. *)
Definition float_of_Z (z : Z) : float :=
  match z with
  | Z0 => PrimFloat.zero
  | Zpos _ => PrimFloat.of_uint63 (Uint63.of_Z z)
  | Zneg p => PrimFloat.opp (PrimFloat.of_uint63 (Uint63.of_Z (Zpos p)))
  end.

Definition float_of_Q (q : Q) : float :=
  PrimFloat.div (float_of_Z (Qnum q)) (float_of_Z (Zpos (Qden q))).

Definition Q_of_float (f : float) : option Q :=
  match Prim2SF f with
  | S754_zero _ => Some 0%Q
  | S754_finite s m e =>
      let n := if s then Zneg m else Zpos m in
      Some (Qred (match e with
                  | Z0 => n # 1
                  | Zpos p => (n * 2 ^ Zpos p) # 1
                  | Zneg p => n # (2 ^ p)
                  end))
  | _ => None
  end.

(** One step of the compensated summation of the grouped mean: the running
    sum and the rounding error that it carries. *)
Definition kahan_step (acc : float * float) (val : float) : float * float :=
  let y := PrimFloat.sub val (snd acc) in
  let t := PrimFloat.add (fst acc) y in
  (t, PrimFloat.sub (PrimFloat.sub t (fst acc)) y).

(** The mean as float64 arithmetic gives it: the numbers are added in their
    order and the sum is divided by their count, each step rounded to the
    nearest float64. *)
Definition float64_mean (qs : list Q) : Q :=
  match Q_of_float
          (PrimFloat.div
             (fst (fold_left kahan_step (map float_of_Q qs)
                     (PrimFloat.zero, PrimFloat.zero)))
             (float_of_Z (Z.of_nat (List.length qs)))) with
  | Some q => q
  | None => 0%Q
  end.

Definition is_str (c : cell) : bool :=
  match c with Str _ => true | _ => false end.

(** The least or greatest of a column of text, for the sample backends:
    text is compared with text only. *)
Definition text_reduce (f : cell -> cell -> cell) (cs : list cell)
  : result cell :=
  if forallb is_str cs then
    match cs with
    | [] => OK NA
    | c :: cs' => OK (fold_left f cs' c)
    end
  else Raise TypeError.

(** A backend that reads every file as [df]. *)
Definition reading (df : DataFrame) : Backend := {|
  read_csv := fun _ _ => OK df;
  strptime := fun _ => None;
  datetime_mean := fun ts =>
    (fold_right Z.add 0 ts / Z.of_nat (List.length ts))%Z;
  float_mean := float64_mean;
  object_min := text_reduce cell_min;
  object_max := text_reduce cell_max
|}.

(* ------------------------------------------------------------------------- *)
(** ** Vocabulary of the properties *)

Definition enumeration : list string := ["Testdate"; "GMT"; "Assay"; "Result"].

Definition summary_columns : list string :=
  ["Age Days"; "Age Weeks"; "Min Titer"; "Max Titer"; "Mean Titer"].

(** [l1] is [l2] with some elements left out, the order kept. *)
Inductive sublist {A : Type} : list A -> list A -> Prop :=
| sublist_nil : sublist [] []
| sublist_skip l1 l2 a : sublist l1 l2 -> sublist l1 (a :: l2)
| sublist_keep l1 l2 a : sublist l1 l2 -> sublist (a :: l1) (a :: l2).

Definition option_key_eq_dec (a b : option key) : {a = b} + {a <> b}.
Proof. decide equality; apply key_eq_dec. Defined.

(** The rows of a table that fall under key [k]. *)
Definition rows_of_key (ixs : list nat) (k : key) (rs : list row) : list row :=
  filter (fun r => if option_key_eq_dec (key_of ixs r) (Some k)
                   then true else false) rs.

Definition has_key (ixs : list nat) (r : row) : bool :=
  match key_of ixs r with
  | Some _ => true
  | None => false
  end.

(** [ks] lists every key that occurs in [rs], each once. *)
Definition distinct_keys (ixs : list nat) (rs : list row) (ks : list key)
  : Prop :=
  NoDup ks /\
  forall k, In k ks <-> exists r, In r rs /\ key_of ixs r = Some k.

(** [c] is the mean of the numbers among [cs], taken in their order as the
    backend's float64 arithmetic gives it; it is missing when there is no
    number. *)
Definition is_mean_of `{Backend} (c : cell) (cs : list cell) : Prop :=
  match nums_of cs with
  | [] => c = NA
  | qs => c = Num (float_mean qs)
  end.


(** A column of numbers. *)
Definition numeric (df : DataFrame) (name : string) (i : nat) : Prop :=
  loc df name = OK i /\ forallb is_num_or_na (series df i) = true.

(** What a block leaves on the page, given the outcome of its figure. *)
Definition block_output `{Toolkit} (r : result (option figure))
  (msg : string) : list element :=
  match r with
  | OK None => []
  | OK (Some fig) =>
      match plotly_chart fig with
      | OK _ => [Plot fig]
      | Raise _ => [Warning msg]
      end
  | Raise _ => [Warning msg]
  end.

Definition create_chart_msg : string :=
  "Sorry, an error is encountered. Please check your inputs.".

Definition custom_chart_msg : string :=
  "Sorry, the chart cannot be generated. Please check your inputs.".

(** Views of a list of groups, used to follow [group_rows] row by row. *)
Definition keys (gs : list group) : list key := map fst gs.

Fixpoint lookup (k : key) (gs : list group) : list row :=
  match gs with
  | [] => []
  | (k', rs) :: gs' => if key_eq_dec k k' then rs else lookup k gs'
  end.

Fixpoint total (gs : list group) : nat :=
  match gs with
  | [] => O
  | g :: gs' => (List.length (snd g) + total gs')%nat
  end.

(** [gs] groups the rows [pre]: no key twice, under every key the rows that
    carry it, no empty group, and every keyed row in some group. *)
Definition grouped (ixs : list nat) (pre : list row) (gs : list group)
  : Prop :=
  NoDup (keys gs) /\
  (forall k, lookup k gs = rows_of_key ixs k pre) /\
  (forall k, In k (keys gs) -> lookup k gs <> []) /\
  total gs = List.length (filter (has_key ixs) pre).

(** The sum of the last column of a table, the counts of a count table. *)
Definition count_total (t : DataFrame) : Q :=
  Qsum (nums_of (map (fun r : row => last r NA) (rows t))).

(** A statement that leaves the session store as it found it. *)
Definition keeps_store {A} (c : M A) : Prop :=
  forall w, loaded_data (snd (c w)) = loaded_data w.

(** The page after a statement that added [out] to it. *)
Definition added (w : world) (out : list element) : world :=
  mkWorld (loaded_data w) (screen w ++ out).

(** The five chart constructors. *)
Definition constructors
  : list (DataFrame -> string -> string -> string -> result figure) :=
  [box_plot; violin_plot; line_chart; bar_chart; scatter_plot].

(** The header test of [load_data]: the name does not start with
    "Unnamed". *)
Definition named (c : string) : bool := negb (String.prefix "Unnamed" c).

(** A table whose rows have one cell per column. *)
Definition rectangular (df : DataFrame) : Prop :=
  Forall (fun r : row => List.length r = List.length (columns df)) (rows df).

(** [k1] does not come after [k2]. *)
Definition key_le (k1 k2 : key) : Prop := key_compare k1 k2 <> Gt.

(** The chart types that the custom block offers. *)
Definition chart_types : list string :=
  ["Line Chart"; "Scatter Plot"; "Bar Chart"; "Box Plot"; "Violin Plot"].

Definition kind_label (k : chart_kind) : string :=
  match k with
  | Line => "Line Chart"
  | Scatter => "Scatter Plot"
  | Bar => "Bar Chart"
  | Box => "Box Plot"
  | Violin => "Violin Plot"
  end.




(** A file as [read_csv] hands it over: an index column without a name of
    its own, and the dates still as text. *)
Definition raw_file : DataFrame :=
  mkDataFrame ["Unnamed: 0"; "Testdate"; "Assay"; "GMT"]
    [ [num 0; Str "01/01/2023"; Str "A"; num 10];
      [num 1; NA; Str "B"; num 20] ].

(** The same file with a date in another form. *)
Definition raw_bad_date : DataFrame :=
  mkDataFrame ["Unnamed: 0"; "Testdate"; "Assay"; "GMT"]
    [ [num 0; Str "2023-01-01"; Str "A"; num 10] ].

(** A backend that reads every file as [raw] and knows one date. *)
Definition parsing (raw : DataFrame) : Backend := {|
  read_csv := fun _ _ => OK raw;
  strptime := fun s =>
    if String.eqb s "01/01/2023" then Some (day 19358) else None;
  datetime_mean := fun ts =>
    (fold_right Z.add 0 ts / Z.of_nat (List.length ts))%Z;
  float_mean := float64_mean;
  object_min := text_reduce cell_min;
  object_max := text_reduce cell_max
|}.

(** A backend that reads the file "good.csv" as [raw] and rejects every
    other file. *)
Definition choosy (raw : DataFrame) : Backend := {|
  read_csv := fun f _ =>
    if String.eqb f "good.csv" then OK raw else Raise ValueError;
  strptime := fun s =>
    if String.eqb s "01/01/2023" then Some (day 19358) else None;
  datetime_mean := fun ts =>
    (fold_right Z.add 0 ts / Z.of_nat (List.length ts))%Z;
  float_mean := float64_mean;
  object_min := text_reduce cell_min;
  object_max := text_reduce cell_max
|}.

(* ========================================================================= *)
(** * Properties *)

(** ** Results *)

Ltac inv H := inversion H; subst; clear H.

Lemma rbind_OK {A B} (c : result A) (k : A -> result B) (b : B) :
  rbind c k = OK b -> exists a, c = OK a /\ k a = OK b.
Proof.
  destruct c as [a | e]; simpl; intros E.
  - exists a; split; [reflexivity | exact E].
  - discriminate E.
Qed.

Lemma mapM_length {A B} (f : A -> result B) (l : list A) (bs : list B) :
  mapM f l = OK bs -> List.length bs = List.length l.
Proof.
  revert bs; induction l as [| a l IH]; simpl; intros bs E.
  - inv E. reflexivity.
  - apply rbind_OK in E. destruct E as (b & _ & E).
    apply rbind_OK in E. destruct E as (bs' & E' & E).
    inv E. simpl. f_equal. apply IH. exact E'.
Qed.

Lemma mapM_total {A B} (f : A -> result B) (l : list A) :
  (forall a, In a l -> exists b, f a = OK b) ->
  exists bs, mapM f l = OK bs.
Proof.
  induction l as [| a l IH]; simpl; intros Hf.
  - eexists; reflexivity.
  - destruct (Hf a (or_introl eq_refl)) as (b & Eb).
    destruct IH as (bs & Ebs); [intros; apply Hf; right; assumption |].
    rewrite Eb, Ebs. simpl. eexists; reflexivity.
Qed.

Lemma mapM_Forall2 {A B} (f : A -> result B) (l : list A) (bs : list B) :
  mapM f l = OK bs -> Forall2 (fun a b => f a = OK b) l bs.
Proof.
  revert bs; induction l as [| a l IH]; simpl; intros bs E.
  - inv E. constructor.
  - apply rbind_OK in E. destruct E as (b & Eb & E).
    apply rbind_OK in E. destruct E as (bs' & E' & E).
    inv E. constructor; [exact Eb | apply IH; exact E'].
Qed.

(** ** Grouping *)

Lemma rows_of_key_app ixs k rs1 rs2 :
  rows_of_key ixs k (rs1 ++ rs2)
  = rows_of_key ixs k rs1 ++ rows_of_key ixs k rs2.
Proof. unfold rows_of_key. apply filter_app. Qed.

Lemma rows_of_key_one ixs k r :
  rows_of_key ixs k [r] = if option_key_eq_dec (key_of ixs r) (Some k)
                          then [r] else [].
Proof.
  unfold rows_of_key; simpl.
  destruct (option_key_eq_dec (key_of ixs r) (Some k)); reflexivity.
Qed.

Lemma in_rows_of_key ixs k rs r :
  In r (rows_of_key ixs k rs) <-> In r rs /\ key_of ixs r = Some k.
Proof.
  unfold rows_of_key. rewrite filter_In.
  destruct (option_key_eq_dec (key_of ixs r) (Some k)); intuition congruence.
Qed.

Lemma keys_add_known k r gs :
  In k (keys gs) -> keys (add_to_group k r gs) = keys gs.
Proof.
  induction gs as [| [k' rs] gs IH]; simpl; intros Hin.
  - contradiction.
  - destruct (key_eq_dec k k') as [-> | Hne]; simpl.
    + reflexivity.
    + f_equal. apply IH. destruct Hin as [E | Hin]; [congruence | exact Hin].
Qed.

Lemma keys_add_new k r gs :
  ~ In k (keys gs) -> keys (add_to_group k r gs) = keys gs ++ [k].
Proof.
  induction gs as [| [k' rs] gs IH]; simpl; intros Hnin.
  - reflexivity.
  - destruct (key_eq_dec k k') as [-> | Hne]; simpl.
    + exfalso. apply Hnin. left. reflexivity.
    + f_equal. apply IH. intros Hin. apply Hnin. right. exact Hin.
Qed.

Lemma keys_add_NoDup k r gs :
  NoDup (keys gs) -> NoDup (keys (add_to_group k r gs)).
Proof.
  intros Hnd. destruct (in_dec key_eq_dec k (keys gs)) as [Hin | Hnin].
  - rewrite keys_add_known by exact Hin. exact Hnd.
  - rewrite keys_add_new by exact Hnin.
    apply NoDup_app; [exact Hnd | constructor; [intros [] | constructor] |].
    intros a Ha [<- | []]. exact (Hnin Ha).
Qed.

Lemma in_keys_add k k' r gs :
  In k' (keys (add_to_group k r gs)) <-> k' = k \/ In k' (keys gs).
Proof.
  destruct (in_dec key_eq_dec k (keys gs)) as [Hin | Hnin].
  - rewrite keys_add_known by exact Hin. intuition congruence.
  - rewrite keys_add_new by exact Hnin. rewrite in_app_iff. simpl.
    intuition congruence.
Qed.

Lemma lookup_absent k gs : ~ In k (keys gs) -> lookup k gs = [].
Proof.
  induction gs as [| [k' rs] gs IH]; simpl; intros Hnin.
  - reflexivity.
  - destruct (key_eq_dec k k') as [-> | Hne].
    + exfalso. apply Hnin. left. reflexivity.
    + apply IH. intros Hin. apply Hnin. right. exact Hin.
Qed.

Lemma lookup_add_same k r gs :
  lookup k (add_to_group k r gs) = lookup k gs ++ [r].
Proof.
  induction gs as [| [k' rs] gs IH]; simpl.
  - destruct (key_eq_dec k k); [reflexivity | congruence].
  - destruct (key_eq_dec k k') as [-> | Hne]; simpl.
    + destruct (key_eq_dec k' k'); [reflexivity | congruence].
    + destruct (key_eq_dec k k'); [congruence | exact IH].
Qed.

Lemma lookup_add_other k k' r gs :
  k' <> k -> lookup k' (add_to_group k r gs) = lookup k' gs.
Proof.
  intros Hne. induction gs as [| [k0 rs] gs IH]; simpl.
  - destruct (key_eq_dec k' k); [congruence | reflexivity].
  - destruct (key_eq_dec k k0) as [-> | Hne0]; simpl.
    + destruct (key_eq_dec k' k0); [congruence | reflexivity].
    + destruct (key_eq_dec k' k0); [reflexivity | exact IH].
Qed.

Lemma total_add k r gs : total (add_to_group k r gs) = S (total gs).
Proof.
  induction gs as [| [k' rs] gs IH]; simpl.
  - reflexivity.
  - destruct (key_eq_dec k k') as [-> | Hne]; simpl.
    + rewrite length_app. simpl. lia.
    + rewrite IH. lia.
Qed.

Lemma in_lookup k l gs :
  NoDup (keys gs) -> In (k, l) gs -> lookup k gs = l.
Proof.
  induction gs as [| [k' rs] gs IH]; simpl; intros Hnd Hin.
  - contradiction.
  - inv Hnd. destruct Hin as [E | Hin].
    + inv E. destruct (key_eq_dec k k); [reflexivity | congruence].
    + destruct (key_eq_dec k k') as [-> | Hne].
      * exfalso. apply H1. change (In (fst (k', l)) (map fst gs)).
        apply in_map. exact Hin.
      * apply IH; assumption.
Qed.

Lemma grouped_nil ixs : grouped ixs [] [].
Proof.
  repeat split; simpl; try constructor; intros; contradiction.
Qed.

Lemma grouped_step ixs pre gs r :
  grouped ixs pre gs -> grouped ixs (pre ++ [r]) (add_row ixs gs r).
Proof.
  intros (Hnd & Hlk & Hne & Htot). unfold add_row, grouped.
  rewrite filter_app, length_app. simpl. unfold has_key at 2.
  destruct (key_of ixs r) as [k0 |] eqn:Ek.
  - split; [apply keys_add_NoDup; exact Hnd |].
    split; [| split].
    + intros k. rewrite rows_of_key_app, rows_of_key_one, Ek.
      destruct (option_key_eq_dec (Some k0) (Some k)) as [E | E].
      * inv E. rewrite lookup_add_same, Hlk. reflexivity.
      * rewrite lookup_add_other by congruence.
        rewrite Hlk, app_nil_r. reflexivity.
    + intros k Hin. destruct (key_eq_dec k k0) as [-> | Hk].
      * rewrite lookup_add_same. intros E. destruct (lookup k0 gs); discriminate.
      * rewrite lookup_add_other by exact Hk. apply Hne.
        apply in_keys_add in Hin. destruct Hin; [contradiction | assumption].
    + rewrite total_add, Htot. simpl. lia.
  - split; [exact Hnd |]. split; [| split].
    + intros k. rewrite rows_of_key_app, rows_of_key_one, Ek.
      destruct (option_key_eq_dec None (Some k)); [discriminate |].
      rewrite app_nil_r. apply Hlk.
    + exact Hne.
    + rewrite Htot. simpl. lia.
Qed.

Lemma grouped_fold ixs rs pre gs :
  grouped ixs pre gs ->
  grouped ixs (pre ++ rs) (fold_left (add_row ixs) rs gs).
Proof.
  revert pre gs; induction rs as [| r rs IH]; simpl; intros pre gs Hg.
  - rewrite app_nil_r. exact Hg.
  - replace (pre ++ r :: rs) with ((pre ++ [r]) ++ rs)
      by (rewrite <- app_assoc; reflexivity).
    apply IH. apply grouped_step. exact Hg.
Qed.

Lemma group_rows_grouped ixs rs : grouped ixs rs (group_rows ixs rs).
Proof.
  unfold group_rows. change rs with ([] ++ rs) at 1.
  apply grouped_fold. apply grouped_nil.
Qed.

Lemma insert_group_perm g gs : Permutation (insert_group g gs) (g :: gs).
Proof.
  induction gs as [| g' gs IH]; simpl.
  - apply Permutation_refl.
  - destruct (key_compare (fst g) (fst g')).
    + apply Permutation_refl.
    + apply Permutation_refl.
    + apply perm_trans with (g' :: g :: gs).
      * apply perm_skip. exact IH.
      * apply perm_swap.
Qed.

Lemma sort_groups_perm gs : Permutation (sort_groups gs) gs.
Proof.
  induction gs as [| g gs IH]; simpl.
  - apply perm_nil.
  - apply perm_trans with (g :: sort_groups gs).
    + apply insert_group_perm.
    + apply perm_skip. exact IH.
Qed.

Lemma total_perm gs gs' : Permutation gs gs' -> total gs = total gs'.
Proof.
  induction 1; simpl; lia.
Qed.

(** The groups that [groupby] hands on: one per key that occurs, each with
    the rows that carry the key, and all keyed rows shared out. *)
Lemma sorted_groups_spec ixs rs :
  let gs := sort_groups (group_rows ixs rs) in
  distinct_keys ixs rs (keys gs) /\
  (forall g, In g gs -> snd g = rows_of_key ixs (fst g) rs) /\
  total gs = List.length (filter (has_key ixs) rs).
Proof.
  intros gs.
  destruct (group_rows_grouped ixs rs) as (Hnd & Hlk & Hne & Htot).
  assert (Hp : Permutation gs (group_rows ixs rs))
    by apply sort_groups_perm.
  assert (Hpk : Permutation (keys gs) (keys (group_rows ixs rs)))
    by (apply Permutation_map; exact Hp).
  split; [split |]; [| | split].
  - apply (Permutation_NoDup (Permutation_sym Hpk)). exact Hnd.
  - intros k. split.
    + intros Hin. apply (Permutation_in _ Hpk) in Hin.
      specialize (Hne k Hin). rewrite Hlk in Hne.
      destruct (rows_of_key ixs k rs) as [| r l] eqn:E; [congruence |].
      exists r. apply in_rows_of_key. rewrite E. left. reflexivity.
    + intros (r & Hr & Ek).
      apply (Permutation_in _ (Permutation_sym Hpk)).
      destruct (in_dec key_eq_dec k (keys (group_rows ixs rs))) as [H | H];
        [exact H |].
      apply lookup_absent in H. rewrite Hlk in H.
      assert (Hin : In r (rows_of_key ixs k rs))
        by (apply in_rows_of_key; split; assumption).
      rewrite H in Hin. contradiction.
  - intros [k l] Hin. simpl. rewrite <- Hlk.
    symmetry. apply in_lookup; [exact Hnd |].
    apply (Permutation_in _ Hp). exact Hin.
  - rewrite (total_perm Hp). exact Htot.
Qed.

Lemma has_key_true ixs r :
  has_key ixs r = true <-> forall i, In i ixs -> at_col i r <> NA.
Proof.
  unfold has_key, key_of.
  destruct (existsb is_na (map (fun i => at_col i r) ixs)) eqn:E.
  - split; [discriminate |]. intros H. exfalso.
    apply existsb_exists in E. destruct E as (c & Hc & Hna).
    apply in_map_iff in Hc. destruct Hc as (i & <- & Hi).
    apply (H i Hi). destruct (at_col i r); try discriminate. reflexivity.
  - split; [| reflexivity]. intros _ i Hi Hna.
    assert (X : existsb is_na (map (fun i => at_col i r) ixs) = true).
    { apply existsb_exists. exists (at_col i r). split.
      - apply in_map_iff. exists i. split; [reflexivity | exact Hi].
      - rewrite Hna. reflexivity. }
    congruence.
Qed.

Lemma total_keys ixs rs gs :
  (forall g, In g gs -> snd g = rows_of_key ixs (fst g) rs) ->
  total gs
  = fold_right (fun k n => (List.length (rows_of_key ixs k rs) + n)%nat) O
      (keys gs).
Proof.
  induction gs as [| g gs IH]; simpl; intros H.
  - reflexivity.
  - rewrite (H g (or_introl eq_refl)). f_equal.
    apply IH. intros g' Hg'. apply H. right. exact Hg'.
Qed.

(** [size] after [groupby]: one row per key that occurs, with the number
    of rows under the key. *)
Lemma groupby_size_spec df group_by name ixs :
  mapM (loc df) group_by = OK ixs ->
  nodupb (group_by ++ [name]) = true ->
  exists ks,
    distinct_keys ixs (rows df) ks /\
    groupby_size df group_by name
    = OK (mkDataFrame (group_by ++ [name])
            (map (fun k => k ++ [count_cell
                                   (List.length
                                      (rows_of_key ixs k (rows df)))]) ks)) /\
    fold_right (fun k n => (List.length (rows_of_key ixs k (rows df)) + n)%nat)
      O ks
    = List.length (filter (has_key ixs) (rows df)).
Proof.
  intros Hix Hnd.
  destruct (sorted_groups_spec ixs (rows df)) as (Hks & Hsnd & Htot).
  set (gs := sort_groups (group_rows ixs (rows df))) in *.
  exists (keys gs). split; [exact Hks |]. split.
  - unfold groupby_size, groupby. rewrite Hix. simpl.
    unfold reset_index. rewrite Hnd. fold gs. do 2 f_equal.
    unfold keys. rewrite map_map. apply map_ext_in.
    intros g Hg. rewrite (Hsnd g Hg). reflexivity.
  - rewrite <- (total_keys ixs (rows df) gs Hsnd). exact Htot.
Qed.

(** ['mean'] after [groupby]: one row per key that occurs, with the mean
    of every requested column over the rows under the key. *)
Lemma groupby_agg_mean_spec `{Backend} df group_by cols ixs vs :
  mapM (loc df) group_by = OK ixs ->
  mapM (mean_column df) cols = OK vs ->
  nodupb (group_by ++ cols) = true ->
  exists ks,
    distinct_keys ixs (rows df) ks /\
    groupby_agg_mean df group_by cols
    = OK (mkDataFrame (group_by ++ cols)
            (map (fun k =>
                    k ++ map (fun v : nat * dtype =>
                                mean_cell (snd v)
                                  (map (at_col (fst v))
                                     (rows_of_key ixs k (rows df)))) vs)
               ks)).
Proof.
  intros Hix Hvs Hnd.
  destruct (sorted_groups_spec ixs (rows df)) as (Hks & Hsnd & _).
  set (gs := sort_groups (group_rows ixs (rows df))) in *.
  exists (keys gs). split; [exact Hks |].
  unfold groupby_agg_mean, groupby. rewrite Hix. simpl. rewrite Hvs. simpl.
  unfold reset_index. rewrite Hnd. fold gs. do 2 f_equal.
  unfold keys. rewrite map_map. apply map_ext_in.
  intros g Hg. rewrite (Hsnd g Hg). reflexivity.
Qed.

(** ** Means *)

Lemma mean_cell_is_mean `{Backend} cs :
  is_mean_of (mean_cell float64 cs) cs.
Proof.
  unfold is_mean_of, mean_cell.
  destruct (nums_of cs) as [| q qs]; reflexivity.
Qed.

Lemma mean_column_numeric df name i :
  numeric df name i -> mean_column df name = OK (i, float64).
Proof.
  intros (Hloc & Hnum). unfold mean_column. rewrite Hloc. simpl.
  unfold dtype_of. rewrite Hnum. reflexivity.
Qed.

Lemma mapM_mean_columns df cols vixs :
  Forall2 (numeric df) cols vixs ->
  mapM (mean_column df) cols = OK (map (fun i => (i, float64)) vixs).
Proof.
  induction 1 as [| c i cols vixs Hn _ IH]; simpl.
  - reflexivity.
  - rewrite (mean_column_numeric Hn). simpl. rewrite IH. reflexivity.
Qed.

Lemma nodupb_NoDup l : nodupb l = true <-> NoDup l.
Proof.
  induction l as [| a l IH]; simpl.
  - split; [constructor | reflexivity].
  - rewrite andb_true_iff, negb_true_iff, IH. split.
    + intros (Hn & Hd). constructor; [| exact Hd].
      intros Hin. assert (X : existsb (String.eqb a) l = true).
      { apply existsb_exists. exists a. split; [exact Hin |].
        apply String.eqb_refl. }
      congruence.
    + intros Hd. inv Hd. split; [| assumption].
      destruct (existsb (String.eqb a) l) eqn:E; [| reflexivity].
      apply existsb_exists in E. destruct E as (b & Hb & Eb).
      apply String.eqb_eq in Eb. subst b. contradiction.
Qed.

Lemma has_column_In df name : has_column df name = true <-> In name (columns df).
Proof.
  unfold has_column. rewrite existsb_exists. split.
  - intros (c & Hc & E). apply String.eqb_eq in E. subst c. exact Hc.
  - intros Hin. exists name. split; [exact Hin | apply String.eqb_refl].
Qed.

Lemma nodupb_snoc l a : NoDup l -> ~ In a l -> nodupb (l ++ [a]) = true.
Proof.
  intros Hnd Hin. apply nodupb_NoDup. apply NoDup_app.
  - exact Hnd.
  - constructor; [intros [] | constructor].
  - intros b Hb [<- | []]. exact (Hin Hb).
Qed.


Lemma nodupb_dup l l' : ~ NoDup l -> nodupb (l ++ l') = false.
Proof.
  intros Hd. destruct (nodupb (l ++ l')) eqn:E; [| reflexivity].
  exfalso. apply Hd. apply nodupb_NoDup in E.
  apply (NoDup_app_remove_r _ _ E).
Qed.

(* ------------------------------------------------------------------------- *)
(** ** Counting per group *)

(** C5, as amended.  Aggregating a table by a non-empty list of grouping
    columns, no column listed twice and none called "Results Count", with
    y-axis "Results Count" gives one row per distinct key combination that
    occurs, made of the key and of the number of input rows that carry the
    key.  The counts add up to the number of input rows that have a value
    in every grouping column; they add up to the number of all input rows
    when no grouping value is missing.  With a column listed twice the
    aggregation ends on [ValueError]. *)
Theorem results_count_per_group `{Backend} (df : DataFrame)
  (group_by : list string) (ixs : list nat) :
  group_by <> [] ->
  mapM (loc df) group_by = OK ixs ->
  (NoDup group_by ->
   ~ In "Results Count" group_by ->
   exists ks,
     distinct_keys ixs (rows df) ks /\
     aggregate df group_by "Results Count"
     = OK (mkDataFrame (group_by ++ ["Results Count"])
             (map (fun k => k ++ [count_cell
                                    (List.length
                                       (rows_of_key ixs k (rows df)))]) ks)) /\
     fold_right (fun k n => (List.length (rows_of_key ixs k (rows df)) + n)%nat)
       O ks
     = List.length (filter (has_key ixs) (rows df)) /\
     ((forall r i, In r (rows df) -> In i ixs -> at_col i r <> NA) ->
      fold_right
        (fun k n => (List.length (rows_of_key ixs k (rows df)) + n)%nat) O ks
      = List.length (rows df))) /\
  (~ NoDup group_by ->
   aggregate df group_by "Results Count" = Raise ValueError).
Proof.
  intros Hne Hix. split.
  - intros Hnd Hrc.
    destruct (groupby_size_spec df group_by "Results Count" Hix
                (@nodupb_snoc _ _ Hnd Hrc))
      as (ks & Hks & Hsize & Hsum).
    exists ks. split; [exact Hks |]. split; [| split].
    + unfold aggregate. destruct group_by as [| g gs]; [congruence |].
      simpl is_empty. simpl negb. cbv iota. exact Hsize.
    + exact Hsum.
    + intros Hall. rewrite Hsum. f_equal.
      apply forallb_filter_id. apply forallb_forall.
      intros r Hr. apply has_key_true. intros i Hi. apply Hall; assumption.
  - intros Hd. unfold aggregate.
    replace (negb (is_empty group_by)) with true
      by (destruct group_by; [congruence | reflexivity]).
    change (String.eqb "Results Count" "Results Count") with true. cbv iota.
    unfold groupby_size, groupby. rewrite Hix. cbn [rbind].
    unfold reset_index. rewrite (@nodupb_dup _ _ Hd). reflexivity.
Qed.

Lemma results_count_per_group_witness :
  exists ks,
    distinct_keys [1%nat] (rows two_rows) ks /\
    aggregate (backend := reading two_rows) two_rows ["Assay"] "Results Count"
    = OK (mkDataFrame (["Assay"] ++ ["Results Count"])
            (map (fun k => k ++ [count_cell
                                   (List.length
                                      (rows_of_key [1%nat] k (rows two_rows)))])
               ks)) /\
    fold_right
      (fun k n => (List.length (rows_of_key [1%nat] k (rows two_rows)) + n)%nat)
      O ks
    = List.length (filter (has_key [1%nat]) (rows two_rows)) /\
    ((forall r i, In r (rows two_rows) -> In i [1%nat] -> at_col i r <> NA) ->
     fold_right
       (fun k n => (List.length (rows_of_key [1%nat] k (rows two_rows)) + n)%nat)
       O ks
     = List.length (rows two_rows)).
Proof.
  destruct (@results_count_per_group (reading two_rows) two_rows ["Assay"]
              [1%nat]) as (Count & _).
  - discriminate.
  - reflexivity.
  - apply Count.
    + constructor; [intros [] | constructor].
    + intros [E | []]. discriminate E.
Defined.

(** C5, as stated, fails on a table with a blank grouping cell: three
    samples, one of them without an assay, grouped by assay, give a single
    group of two, so that the counts add up to 2 and not to 3. *)
Lemma results_count_skips_blank_keys :
  exists t,
    aggregate (backend := reading blank_assay) blank_assay ["Assay"]
      "Results Count" = OK t /\
    rows t = [[Str "A"; num 2]] /\
    ~ (count_total t
       == inject_Z (Z.of_nat (List.length (rows blank_assay))))%Q.
Proof.
  eexists. split; [vm_compute; reflexivity |].
  split; [reflexivity |].
  vm_compute. discriminate.
Qed.

(* ------------------------------------------------------------------------- *)
(** ** Averaging per group *)

Lemma summary_columns_are_means_aux `{Backend} (df : DataFrame)
  (group_by : list string) (y_axis : string) (ixs vixs : list nat) :
  group_by <> [] ->
  y_axis <> "Results Count" ->
  mapM (loc df) group_by = OK ixs ->
  Forall2 (numeric df) summary_columns vixs ->
  nodupb (group_by ++ summary_columns) = true ->
  exists t,
    aggregate df group_by y_axis = OK t /\
    columns t = group_by ++ summary_columns.
Proof.
  intros Hne Hy Hix Hnum Hnd.
  pose proof (mapM_mean_columns Hnum) as Hvs.
  destruct (groupby_agg_mean_spec df group_by summary_columns Hix Hvs Hnd)
    as (ks & _ & Hagg).
  eexists. split.
  - unfold aggregate. destruct group_by as [| g gs]; [congruence |].
    simpl is_empty. simpl negb. cbv iota.
    apply String.eqb_neq in Hy. rewrite Hy. exact Hagg.
  - reflexivity.
Qed.




(** The scenario of the specification: two samples of assay A with mean
    titers 5 and 7, grouped by assay, give one row with mean titer 6. *)
Example mean_titer_scenario :
  aggregate (backend := reading two_rows) two_rows ["Assay"] "Mean Titer"
  = OK (mkDataFrame
          ["Assay"; "Age Days"; "Age Weeks"; "Min Titer"; "Max Titer";
           "Mean Titer"]
          [[Str "A"; num 21; num 3; num 5; num 7; num 6]]).
Proof. vm_compute. reflexivity. Qed.

(* ------------------------------------------------------------------------- *)
(** ** Date filtering *)

Lemma ns_per_day_pos : (0 < ns_per_day)%Z.
Proof. reflexivity. Qed.

Lemma date_of_mono s t : (s <= t)%Z -> (date_of s <= date_of t)%Z.
Proof. intros Hst. apply Z.div_le_mono; [exact ns_per_day_pos | exact Hst]. Qed.

(** The time of the day does not count. *)
Lemma date_of_day d s :
  (0 <= s < ns_per_day)%Z -> date_of (d * ns_per_day + s) = d.
Proof.
  intros Hs. unfold date_of. symmetry.
  apply (Z.div_unique _ _ d s); [left; exact Hs | ring].
Qed.

Lemma fold_min_le l a :
  (fold_left Z.min l a <= a)%Z /\
  forall x, In x l -> (fold_left Z.min l a <= x)%Z.
Proof.
  revert a; induction l as [| b l IH]; simpl; intros a.
  - split; [lia | intros x []].
  - destruct (IH (Z.min a b)) as (H1 & H2). split; [lia |].
    intros x [<- | Hx]; [lia | apply H2; exact Hx].
Qed.

Lemma fold_max_ge l a :
  (a <= fold_left Z.max l a)%Z /\
  forall x, In x l -> (x <= fold_left Z.max l a)%Z.
Proof.
  revert a; induction l as [| b l IH]; simpl; intros a.
  - split; [lia | intros x []].
  - destruct (IH (Z.max a b)) as (H1 & H2). split; [lia |].
    intros x [<- | Hx]; [lia | apply H2; exact Hx].
Qed.

Lemma stamp_min_le ts t :
  In t ts -> exists m, stamp_min ts = Some m /\ (m <= t)%Z.
Proof.
  destruct ts as [| a ts]; simpl; [intros [] |].
  intros Hin. eexists. split; [reflexivity |].
  destruct (fold_min_le ts a) as (H1 & H2).
  destruct Hin as [<- | Hin]; [exact H1 | apply H2; exact Hin].
Qed.

Lemma stamp_max_ge ts t :
  In t ts -> exists m, stamp_max ts = Some m /\ (t <= m)%Z.
Proof.
  destruct ts as [| a ts]; simpl; [intros [] |].
  intros Hin. eexists. split; [reflexivity |].
  destruct (fold_max_ge ts a) as (H1 & H2).
  destruct Hin as [<- | Hin]; [exact H1 | apply H2; exact Hin].
Qed.

Lemma in_stamps_of cs t : In (Date t) cs -> In t (stamps_of cs).
Proof.
  induction cs as [| c cs IH]; simpl; [intros [] |].
  intros [E | Hin].
  - subst c. left. reflexivity.
  - destruct c; try (apply IH; exact Hin). right. apply IH. exact Hin.
Qed.

Lemma between_spec lo hi c :
  between lo hi c = true <->
  exists t l h, c = Date t /\ lo = Some l /\ hi = Some h /\
                (l <= date_of t <= h)%Z.
Proof.
  unfold between. split.
  - destruct c as [| q | s | t]; try discriminate.
    destruct lo as [l |]; [| discriminate].
    destruct hi as [h |]; [| discriminate].
    rewrite andb_true_iff, !Z.leb_le. intros Hr.
    exists t, l, h. auto.
  - intros (t & l & h & -> & -> & -> & Hr).
    rewrite andb_true_iff, !Z.leb_le. exact Hr.
Qed.

Lemma testdate_loc_filter df i (p : row -> bool) :
  testdate_loc df = OK i ->
  testdate_loc (mkDataFrame (columns df) (filter p (rows df))) = OK i.
Proof.
  unfold testdate_loc, loc. simpl.
  destruct (index_of "Testdate" (columns df)) as [j |]; simpl;
    [| discriminate].
  destruct (forallb is_date_or_na (series df j)) eqn:E; [| discriminate].
  intros X; inv X.
  assert (F : forallb is_date_or_na
                (series (mkDataFrame (columns df) (filter p (rows df))) i)
              = true).
  { apply forallb_forall. intros c Hc. unfold series in Hc. simpl in Hc.
    apply in_map_iff in Hc. destruct Hc as (r & <- & Hr).
    apply filter_In in Hr. destruct Hr as (Hr & _).
    rewrite forallb_forall in E. apply E. unfold series.
    apply in_map. exact Hr. }
  rewrite F. reflexivity.
Qed.

Lemma filter_narrow {A} (p q : A -> bool) l :
  (forall a, p a = true -> q a = true) ->
  filter q (filter p l) = filter p l.
Proof.
  intros Hpq. apply forallb_filter_id. apply forallb_forall.
  intros a Ha. apply filter_In in Ha. apply Hpq. apply Ha.
Qed.

Lemma sublist_filter {A} (p : A -> bool) (l : list A) :
  sublist (filter p l) l.
Proof.
  induction l as [| a l IH]; simpl; [constructor |].
  destruct (p a); constructor; exact IH.
Qed.

Lemma full_bounds_between df i r :
  testdate_loc df = OK i ->
  In r (rows df) ->
  between (option_map date_of (stamp_min (stamps_of (series df i))))
          (option_map date_of (stamp_max (stamps_of (series df i))))
          (at_col i r)
  = negb (is_na (at_col i r)).
Proof.
  intros Hloc Hr.
  assert (Hc : In (at_col i r) (series df i))
    by (unfold series; apply in_map; exact Hr).
  assert (Hd : is_date_or_na (at_col i r) = true).
  { unfold testdate_loc in Hloc. apply rbind_OK in Hloc.
    destruct Hloc as (j & _ & Hj).
    destruct (forallb is_date_or_na (series df j)) eqn:E; [| discriminate].
    inv Hj. rewrite forallb_forall in E. apply E. exact Hc. }
  destruct (at_col i r) as [| q | s | t] eqn:Ec; try discriminate.
  - reflexivity.
  - apply in_stamps_of in Hc.
    destruct (stamp_min_le _ _ Hc) as (m & -> & Hm).
    destruct (stamp_max_ge _ _ Hc) as (M & -> & HM).
    simpl. apply andb_true_iff. rewrite !Z.leb_le.
    split; apply date_of_mono; assumption.
Qed.

(** C8, as amended.  Date filtering keeps exactly the rows whose Testdate,
    as a calendar date, lies between [lo] and [hi], both included, whatever
    the time of the day: the rows of the result are the rows of the table
    that pass this test, each as often as it occurs and in the order of the
    table.  Filtering the result again by the same or a wider range changes
    nothing; and filtering by the table's own first and last date, the
    range in use whenever the x-axis is not Testdate, keeps every row that
    has a Testdate, hence every row when no Testdate is missing. *)
Theorem filter_by_date_spec `{Toolkit} (df : DataFrame) (i : nat) :
  testdate_loc df = OK i ->
  (forall lo hi, exists t,
      filter_by_date df lo hi = OK t /\
      columns t = columns df /\
      rows t = filter (fun r => between lo hi (at_col i r)) (rows df) /\
      (forall r, between lo hi (at_col i r) = true <->
                 exists ts l h, at_col i r = Date ts /\ lo = Some l /\
                                hi = Some h /\ (l <= date_of ts <= h)%Z) /\
      sublist (rows t) (rows df) /\
      (forall r, In r (rows t) <->
                 In r (rows df) /\
                 exists ts l h, at_col i r = Date ts /\ lo = Some l /\
                                hi = Some h /\ (l <= date_of ts <= h)%Z) /\
      (forall l h l' h',
          lo = Some l -> hi = Some h -> (l' <= l)%Z -> (h <= h')%Z ->
          filter_by_date t (Some l') (Some h') = OK t)) /\
  (forall d s, (0 <= s < ns_per_day)%Z -> date_of (d * ns_per_day + s) = d) /\
  (forall key x_axis, x_axis <> "Testdate" ->
     exists lo hi,
       date_slider df key x_axis = OK (lo, hi) /\
       filter_by_date df lo hi
       = OK (mkDataFrame (columns df)
               (filter (fun r => negb (is_na (at_col i r))) (rows df))) /\
       ((forall r, In r (rows df) -> at_col i r <> NA) ->
        filter_by_date df lo hi = OK (mkDataFrame (columns df) (rows df)))).
Proof.
  intros Hloc. split; [| split].
  - intros lo hi. unfold filter_by_date at 1. rewrite Hloc. simpl.
    eexists. split; [reflexivity |]. split; [reflexivity |].
    split; [reflexivity |].
    split; [intros r; apply between_spec |].
    split; [apply sublist_filter |]. split.
    + intros r. simpl. rewrite filter_In, between_spec. reflexivity.
    + intros l h l' h' -> -> Hl Hh. unfold filter_by_date.
      rewrite (@testdate_loc_filter df i _ Hloc). simpl. do 2 f_equal.
      apply filter_narrow. intros r Hr.
      apply between_spec in Hr.
      destruct Hr as (ts & l0 & h0 & Ec & El & Eh & Hr). inv El. inv Eh.
      apply between_spec. exists ts, l', h'. repeat split; try assumption; lia.
  - exact date_of_day.
  - intros key x_axis Hx. apply String.eqb_neq in Hx.
    assert (Hf : filter_by_date df
                   (option_map date_of (stamp_min (stamps_of (series df i))))
                   (option_map date_of (stamp_max (stamps_of (series df i))))
                 = OK (mkDataFrame (columns df)
                         (filter (fun r => negb (is_na (at_col i r)))
                            (rows df)))).
    { unfold filter_by_date. rewrite Hloc. simpl. do 2 f_equal.
      apply filter_ext_in. intros r Hr.
      apply full_bounds_between; assumption. }
    do 2 eexists. split; [| split].
    + unfold date_slider, date_bounds. rewrite Hloc. simpl. rewrite Hx.
      reflexivity.
    + exact Hf.
    + intros Hall. rewrite Hf. do 2 f_equal.
      apply forallb_filter_id. apply forallb_forall. intros r Hr.
      specialize (Hall r Hr). destruct (at_col i r); try reflexivity.
      congruence.
Qed.

Lemma filter_by_date_spec_witness :
  testdate_loc two_rows = OK 0%nat /\
  (exists t,
      filter_by_date two_rows (Some 19358%Z) (Some 19358%Z) = OK t /\
      rows t = filter (fun r => between (Some 19358%Z) (Some 19358%Z)
                                  (at_col 0 r)) (rows two_rows)) /\
  exists lo hi,
    date_slider (toolkit := first_render None) two_rows "box plot" "Assay"
    = OK (lo, hi) /\
    filter_by_date two_rows lo hi
    = OK (mkDataFrame (columns two_rows)
            (filter (fun r => negb (is_na (at_col 0 r))) (rows two_rows))) /\
    ((forall r, In r (rows two_rows) -> at_col 0 r <> NA) ->
     filter_by_date two_rows lo hi
     = OK (mkDataFrame (columns two_rows) (rows two_rows))).
Proof.
  split; [reflexivity |].
  destruct (@filter_by_date_spec (first_render None) two_rows 0%nat eq_refl)
    as (Keep & _ & Full).
  split.
  - destruct (Keep (Some 19358%Z) (Some 19358%Z)) as (t & E & _ & R & _).
    exists t. split; [exact E | exact R].
  - apply Full. discriminate.
Defined.

(** C8, as stated, fails on a table with a blank test date: with the x-axis
    on Assay the range is the table's own first and last date, and the
    sample without a date is dropped all the same. *)
Lemma full_range_drops_blank_dates :
  exists lo hi t,
    date_slider (toolkit := first_render None) blank_date "box plot" "Assay"
    = OK (lo, hi) /\
    filter_by_date blank_date lo hi = OK t /\
    List.length (rows t) = 2%nat /\
    List.length (rows blank_date) = 3%nat /\
    rows t <> rows blank_date.
Proof.
  do 3 eexists. split; [vm_compute; reflexivity |].
  split; [vm_compute; reflexivity |].
  split; [reflexivity |]. split; [reflexivity |].
  intros E. apply (f_equal (@List.length row)) in E. discriminate E.
Qed.

(** Noon of 01/01/2023 counts as 01/01/2023. *)
Example noon_is_kept :
  filter_by_date two_rows (Some 19358%Z) (Some 19358%Z)
  = OK (mkDataFrame (columns two_rows) (rows two_rows)).
Proof. vm_compute. reflexivity. Qed.

(* ------------------------------------------------------------------------- *)
(** ** No grouping *)

Lemma update_layout_data fig title height :
  fig_data (update_layout fig title height) = fig_data fig.
Proof. reflexivity. Qed.

Lemma px_data k df x y color fac fig :
  px k df x y color fac = OK fig ->
  fig_data fig = df /\ fig_kind fig = k /\ fig_x fig = x /\ fig_y fig = y /\
  fig_color fig = color /\ fig_facet_col fig = fac.
Proof.
  unfold px.
  destruct (has_column df x && has_column df y && has_column df color
            && has_facet df fac); [| discriminate].
  intros E; inv E. simpl. repeat split.
Qed.

(** C7.  With no grouping field the aggregation step hands the table on as
    it is, for every y-axis, "Results Count" included, in the pre-defined
    blocks and in the custom block alike; the table a pre-defined block
    passes to its chart constructor is then the date-filtered table, with
    the columns and rows of the loaded one. *)
Theorem empty_grouping_is_identity `{Backend} `{Toolkit} :
  (forall df y_axis, aggregate df [] y_axis = OK df) /\
  (forall df y_axis, custom_aggregate df [] y_axis = OK (df, y_axis)) /\
  (forall df chart x y group color chart_func x_axis y_axis color_by lo hi fig,
      (forall d a b c f, chart_func d a b c = OK f -> fig_data f = d) ->
      select_param (lower chart) x y = OK (x_axis, y_axis) ->
      select_grouping (lower chart) group color y_axis = OK ([], color_by) ->
      date_slider df (lower chart) x_axis = OK (lo, hi) ->
      create_chart_figure df chart x y group color chart_func
      = OK (Some fig) ->
      filter_by_date df lo hi = OK (fig_data fig) /\
      columns (fig_data fig) = columns df).
Proof.
  split; [reflexivity |]. split; [reflexivity |].
  intros df chart x y group color chart_func x_axis y_axis color_by lo hi fig
         Hdata Hparam Hgroup Hrange.
  unfold create_chart_figure.
  destruct (checkbox ("Show " ++ lower chart) true) as [[|] | e]; simpl;
    try discriminate.
  rewrite Hparam. simpl. rewrite Hgroup. simpl. rewrite Hrange. simpl.
  destruct (text_input _ _ _) as [title | e]; simpl; [| discriminate].
  destruct (slider _ _ _ _ _) as [height | e]; simpl; [| discriminate].
  destruct (filter_by_date df lo hi) as [df' | e] eqn:Ef; simpl;
    [| discriminate].
  destruct (chart_func df' x_axis y_axis color_by) as [f | e] eqn:Ec; simpl;
    [| discriminate].
  intros E; inv E. rewrite update_layout_data, (Hdata _ _ _ _ _ Ec).
  split; [reflexivity |].
  unfold filter_by_date in Ef. apply rbind_OK in Ef.
  destruct Ef as (i & _ & Ef). inv Ef. reflexivity.
Qed.

(** The scenario of the specification: two samples, y-axis "Results Count",
    no grouping: the two rows go on as they are, and no count column is
    made. *)
Example results_count_without_grouping :
  aggregate (backend := reading two_rows) two_rows [] "Results Count"
  = OK two_rows /\
  has_column two_rows "Results Count" = false.
Proof. split; reflexivity. Qed.

(* ------------------------------------------------------------------------- *)
(** ** Bar charts *)







Example bar_chart_on_assay :
  option_map fig_facet_col
    (match bar_chart two_rows "Assay" "GMT" "Result" with
     | OK fig => Some fig
     | Raise _ => None
     end) = Some None.
Proof. reflexivity. Qed.

Example bar_chart_on_testdate :
  option_map fig_facet_col
    (match bar_chart two_rows "Testdate" "GMT" "Result" with
     | OK fig => Some fig
     | Raise _ => None
     end) = Some (Some "Assay").
Proof. reflexivity. Qed.

(* ------------------------------------------------------------------------- *)
(** ** Chart blocks and failures *)

Lemma added_nil w : added w [] = w.
Proof. destruct w. unfold added. simpl. rewrite app_nil_r. reflexivity. Qed.

Lemma added_added w out1 out2 :
  added (added w out1) out2 = added w (out1 ++ out2).
Proof. unfold added. simpl. rewrite app_assoc. reflexivity. Qed.

Lemma block_run `{Toolkit} (r : result (option figure)) (msg : string) w :
  try_except (ofig <- lift r ;; show ofig)%script (emit (Warning msg)) w
  = (OK tt, added w (block_output r msg)).
Proof.
  unfold try_except, bind, lift, show, block_output.
  destruct r as [[fig |] | e]; simpl.
  - unfold bind, lift, emit. destruct (plotly_chart fig) as [[] | e]; reflexivity.
  - unfold ret. rewrite added_nil. reflexivity.
  - reflexivity.
Qed.

Lemma create_chart_run `{Backend} `{Toolkit} df chart x y group color f w :
  create_chart df chart x y group color f w
  = (OK tt,
     added w (block_output (create_chart_figure df chart x y group color f)
                create_chart_msg)).
Proof. unfold create_chart. apply block_run. Qed.

Lemma custom_chart_run `{Backend} `{Toolkit} df w :
  custom_chart df w
  = (OK tt, added w (block_output (custom_chart_figure df) custom_chart_msg)).
Proof. unfold custom_chart. apply block_run. Qed.

Lemma charts_run `{Backend} `{Toolkit} df w :
  charts df w
  = (OK tt,
     added w
       (block_output (create_chart_figure df "Box plot" 2 3 None 0 box_plot)
          create_chart_msg ++
        block_output
          (create_chart_figure df "Violin plot" 2 3 None 0 violin_plot)
          create_chart_msg ++
        block_output
          (create_chart_figure df "Line chart" 2 3
             (Some ["Testdate"; "GMT"; "Assay"]) 0 line_chart)
          create_chart_msg ++
        block_output
          (create_chart_figure df "Bar chart" 2 4
             (Some ["Assay"; "Testdate"; "Result"]) 1 bar_chart)
          create_chart_msg ++
        block_output
          (create_chart_figure df "Scatter plot" 0 3
             (Some ["Testdate"; "GMT"; "Assay"]) 0 scatter_plot)
          create_chart_msg ++
        block_output (custom_chart_figure df) custom_chart_msg)).
Proof.
  unfold charts, bind.
  rewrite !create_chart_run. rewrite custom_chart_run.
  rewrite !added_added. rewrite <- ?app_assoc. reflexivity.
Qed.

(** C4.  Whatever is raised while a chart block selects its parameters,
    filters, aggregates or builds its chart is caught in the block: the
    block returns normally, leaves the generic warning on the page where
    the figure would be, and leaves the session store alone.  A pass over
    the six blocks returns normally too, and what it adds to the page is
    the output of each block in turn, each computed from the loaded table
    and the block's own widgets only; whatever the metrics put on the page
    before stays in front of it. *)
Theorem chart_failures_stay_in_the_block `{Backend} `{Toolkit}
  (df : DataFrame) (w : world) :
  (forall chart x y group color f,
      create_chart df chart x y group color f w
      = (OK tt,
         added w
           (block_output (create_chart_figure df chart x y group color f)
              create_chart_msg)) /\
      (forall e, create_chart_figure df chart x y group color f = Raise e ->
                 create_chart df chart x y group color f w
                 = (OK tt, added w [Warning create_chart_msg]))) /\
  (custom_chart df w
   = (OK tt, added w (block_output (custom_chart_figure df) custom_chart_msg))
   /\
   (forall e, custom_chart_figure df = Raise e ->
              custom_chart df w = (OK tt, added w [Warning custom_chart_msg])))
  /\
  charts df w
  = (OK tt,
     added w
       (block_output (create_chart_figure df "Box plot" 2 3 None 0 box_plot)
          create_chart_msg ++
        block_output
          (create_chart_figure df "Violin plot" 2 3 None 0 violin_plot)
          create_chart_msg ++
        block_output
          (create_chart_figure df "Line chart" 2 3
             (Some ["Testdate"; "GMT"; "Assay"]) 0 line_chart)
          create_chart_msg ++
        block_output
          (create_chart_figure df "Bar chart" 2 4
             (Some ["Assay"; "Testdate"; "Result"]) 1 bar_chart)
          create_chart_msg ++
        block_output
          (create_chart_figure df "Scatter plot" 0 3
             (Some ["Testdate"; "GMT"; "Assay"]) 0 scatter_plot)
          create_chart_msg ++
        block_output (custom_chart_figure df) custom_chart_msg)) /\
  (forall w1,
      metrics df w = (OK tt, w1) ->
      exists out,
        (metrics df ;;; charts df)%script w = (OK tt, added w1 out) /\
        screen (added w1 out) = screen w1 ++ out).
Proof.
  split; [| split; [| split]].
  - intros chart x y group color f. split.
    + apply create_chart_run.
    + intros e He. rewrite create_chart_run, He. reflexivity.
  - split.
    + apply custom_chart_run.
    + intros e He. rewrite custom_chart_run, He. reflexivity.
  - apply charts_run.
  - intros w1 Hm. unfold bind at 1. rewrite Hm, charts_run.
    eexists. split; reflexivity.
Qed.

(** A block whose grouping column is not in the table: the bar chart is
    grouped by Assay, Testdate and Result, and the table has no Result.
    On the first run after the upload the block leaves the warning; the
    metrics before it and the blocks around it are on the page. *)
Example missing_grouping_column :
  exists f1 f2 f3 f5,
    screen (snd (script (backend := reading no_result)
                   (toolkit := first_render (Some "file"))
                   (mkWorld None [])))
    = [Toast "File uploaded successfully!"; Toast "Loading dashboard...";
       Metric "Total Number of Samples" (num 2);
       Metric "Number of Assays" (num 1);
       Metric "Minimum GMT" (num 10); Metric "Maximum GMT" (num 20);
       Plot f1; Plot f2; Plot f3; Warning create_chart_msg; Plot f5].
Proof. do 4 eexists. vm_compute. reflexivity. Qed.

(* ------------------------------------------------------------------------- *)
(** ** The session store *)

Lemma keeps_ret {A} (a : A) : keeps_store (ret a).
Proof. intros w. reflexivity. Qed.

Lemma keeps_lift {A} (c : result A) : keeps_store (lift c).
Proof. intros w. reflexivity. Qed.

Lemma keeps_emit e : keeps_store (emit e).
Proof. intros w. reflexivity. Qed.

Lemma keeps_bind {A B} (c : M A) (k : A -> M B) :
  keeps_store c -> (forall a, keeps_store (k a)) -> keeps_store (bind c k).
Proof.
  intros Hc Hk w. unfold bind. specialize (Hc w).
  destruct (c w) as [[a | e] w']; simpl in *.
  - rewrite Hk. exact Hc.
  - exact Hc.
Qed.

Lemma keeps_charts `{Backend} `{Toolkit} df : keeps_store (charts df).
Proof. intros w. rewrite charts_run. reflexivity. Qed.

Lemma keeps_metrics `{Backend} df : keeps_store (metrics df).
Proof.
  unfold metrics.
  repeat (apply keeps_bind; [| intros ?]);
    first [apply keeps_emit | apply keeps_lift].
Qed.

Lemma keeps_dashboard `{Backend} `{Toolkit} : keeps_store dashboard.
Proof.
  intros w. unfold dashboard, bind at 1, get_loaded_data.
  destruct (loaded_data w) as [[df |] |] eqn:E; try (simpl; exact E).
  assert (K : keeps_store
                (emit (Toast "Loading dashboard...") ;;;
                 metrics df ;;; charts df)%script).
  { apply keeps_bind; [apply keeps_emit | intros _].
    apply keeps_bind; [apply keeps_metrics | intros _].
    apply keeps_charts. }
  rewrite (K w). exact E.
Qed.

Lemma upload_loaded `{Backend} `{Toolkit} w df :
  loaded_data w = Some (Some df) -> upload w = (OK tt, w).
Proof.
  intros E. unfold upload, bind, get_loaded_data, ret. rewrite E.
  simpl. rewrite E.
  destruct (file_uploader "Choose a CSV file"); reflexivity.
Qed.

Lemma script_loaded `{Backend} `{Toolkit} w df :
  loaded_data w = Some (Some df) ->
  loaded_data (snd (script w)) = Some (Some df).
Proof.
  intros E. unfold script, bind. rewrite (upload_loaded w E).
  rewrite keeps_dashboard. exact E.
Qed.

Lemma session_loaded backend df events :
  session backend (Some (Some df)) events = Some (Some df).
Proof.
  unfold session. induction events as [| tk events IH]; simpl.
  - reflexivity.
  - unfold rerun at 2.
    rewrite (@script_loaded backend tk (mkWorld (Some (Some df)) []) df eq_refl).
    exact IH.
Qed.

(** C3.  Once a table is in the session store, a run of the script leaves
    it there, whatever file the uploader holds and whatever the widgets
    answer; so it stays through every later event of the session, and the
    store is written at most once with a table.  The first upload that
    parses is the one that is stored. *)
Theorem loaded_table_is_kept (backend : Backend) (df : DataFrame) :
  (forall (toolkit : Toolkit) w,
      loaded_data w = Some (Some df) ->
      loaded_data (snd (script w)) = Some (Some df)) /\
  (forall events, session backend (Some (Some df)) events = Some (Some df)) /\
  (forall store before after,
      session backend store before = Some (Some df) ->
      session backend store (before ++ after) = Some (Some df)) /\
  (forall (toolkit : Toolkit) w f,
      loaded_data w = None \/ loaded_data w = Some None ->
      file_uploader "Choose a CSV file" = Some f ->
      load_data f = OK df ->
      loaded_data (snd (script w)) = Some (Some df)).
Proof.
  split; [| split; [| split]].
  - intros toolkit w E. apply script_loaded. exact E.
  - apply session_loaded.
  - intros store before after E. unfold session in *.
    rewrite fold_left_app, E. apply session_loaded.
  - intros toolkit w f Hw Hf Hl.
    unfold script, bind at 1.
    assert (U : exists w', upload w = (OK tt, w') /\
                           loaded_data w' = Some (Some df)).
    { unfold upload, bind, get_loaded_data, set_loaded_data, ret, lift, emit.
      rewrite Hf.
      destruct Hw as [E | E]; rewrite E; cbn -[load_data];
        rewrite ?E; cbn -[load_data]; rewrite Hl;
        eexists; split; reflexivity. }
    destruct U as (w' & -> & E'). rewrite keeps_dashboard. exact E'.
Qed.

(** Two uploads in a row: the second file is not read. *)
Example second_upload_is_ignored :
  session (reading two_rows) None
    [first_render (Some "first.csv"); first_render (Some "second.csv")]
  = Some (Some two_rows) /\
  session (reading blank_date) (Some (Some two_rows))
    [first_render (Some "second.csv")]
  = Some (Some two_rows).
Proof. split; vm_compute; reflexivity. Qed.

(* ------------------------------------------------------------------------- *)
(** ** The columns after averaging *)

Lemma enumeration_apart g : In g enumeration -> ~ In g summary_columns.
Proof.
  unfold enumeration, summary_columns. simpl.
  intros [<- | [<- | [<- | [<- | []]]]] H;
    repeat (destruct H as [H | H]; [discriminate H |]); exact H.
Qed.

Lemma predefined_columns_distinct group_by :
  (forall g, In g group_by -> In g enumeration) ->
  NoDup group_by ->
  nodupb (group_by ++ summary_columns) = true.
Proof.
  intros Hsub Hnd. apply nodupb_NoDup. apply NoDup_app.
  - exact Hnd.
  - apply nodupb_NoDup. reflexivity.
  - intros g Hg. apply enumeration_apart. apply Hsub. exact Hg.
Qed.

Lemma px_without_y k df x y color fac :
  has_column df y = false -> px k df x y color fac = Raise ValueError.
Proof.
  intros Hy. unfold px. rewrite Hy, andb_false_r. reflexivity.
Qed.

Lemma constructor_without_y f df x y color :
  In f constructors -> has_column df y = false ->
  f df x y color = Raise ValueError.
Proof.
  unfold constructors. simpl.
  intros [<- | [<- | [<- | [<- | [<- | []]]]]] Hy;
    apply px_without_y; exact Hy.
Qed.

(** C10.  In a pre-defined block with a non-empty grouping and a y-axis
    other than "Results Count", the aggregated table has the grouping
    fields and Age Days, Age Weeks, Min Titer, Max Titer, Mean Titer for
    columns, and nothing else.  "GMT" is a column of it only as a grouping
    field; with "GMT" for y-axis and a grouping without "GMT", none of the
    chart constructors gets a y column, and the block ends on its
    warning. *)
Theorem gmt_is_not_aggregated `{Backend} `{Toolkit} (df : DataFrame)
  (group_by : list string) (y_axis : string) (ixs vixs : list nat) :
  group_by <> [] ->
  y_axis <> "Results Count" ->
  (forall g, In g group_by -> In g enumeration) ->
  NoDup group_by ->
  mapM (loc df) group_by = OK ixs ->
  Forall2 (numeric df) summary_columns vixs ->
  exists t,
    aggregate df group_by y_axis = OK t /\
    columns t = group_by ++ summary_columns /\
    (In "GMT" (columns t) <-> In "GMT" group_by) /\
    (~ In "GMT" group_by ->
     (forall f x c, In f constructors -> f t x "GMT" c = Raise ValueError) /\
     (forall df0 chart x y group color f x_axis color_by lo hi w,
         In f constructors ->
         y_axis = "GMT" ->
         checkbox ("Show " ++ lower chart)%string true = OK true ->
         select_param (lower chart) x y = OK (x_axis, y_axis) ->
         select_grouping (lower chart) group color y_axis
         = OK (group_by, color_by) ->
         date_slider df0 (lower chart) x_axis = OK (lo, hi) ->
         filter_by_date df0 lo hi = OK df ->
         create_chart df0 chart x y group color f w
         = (OK tt, added w [Warning create_chart_msg]))).
Proof.
  intros Hne Hy Hsub Hnd Hix Hnum.
  pose proof (predefined_columns_distinct Hsub Hnd) as Hcols.
  destruct (summary_columns_are_means_aux Hne Hy Hix Hnum Hcols)
    as (t & Hagg & Hc).
  exists t. split; [exact Hagg |]. split; [exact Hc |].
  assert (Hgmt : In "GMT" (columns t) <-> In "GMT" group_by).
  { rewrite Hc, in_app_iff. split; [| auto].
    intros [Hg | Hs]; [exact Hg |].
    exfalso. revert Hs. apply enumeration_apart. simpl. auto. }
  split; [exact Hgmt |].
  intros Hno.
  assert (Hy0 : has_column t "GMT" = false).
  { destruct (has_column t "GMT") eqn:E; [| reflexivity].
    apply has_column_In in E. apply Hgmt in E. contradiction. }
  split.
  - intros f x c Hf. apply constructor_without_y; assumption.
  - intros df0 chart x y group color f x_axis color_by lo hi w
           Hf Ey Hshow Hparam Hgroup Hrange Hfilter.
    rewrite create_chart_run.
    assert (R : exists e,
               create_chart_figure df0 chart x y group color f = Raise e).
    { unfold create_chart_figure. rewrite Hshow. cbn [rbind].
      rewrite Hparam. cbn [rbind fst snd]. rewrite Hgroup. cbn [rbind fst snd].
      rewrite Hrange. cbn [rbind fst snd].
      destruct (text_input _ _ _) as [title | e]; cbn [rbind];
        [| eexists; reflexivity].
      destruct (slider _ _ _ _ _) as [height | e]; cbn [rbind];
        [| eexists; reflexivity].
      rewrite Hfilter. cbn [rbind]. rewrite Hagg. cbn [rbind].
      rewrite Ey. rewrite (@constructor_without_y f t x_axis "GMT" color_by Hf Hy0).
      eexists; reflexivity. }
    destruct R as (e & ->). reflexivity.
Qed.

Lemma gmt_is_not_aggregated_witness :
  exists t,
    aggregate (backend := reading two_rows) two_rows ["Assay"] "GMT" = OK t /\
    columns t = ["Assay"] ++ summary_columns /\
    (In "GMT" (columns t) <-> In "GMT" ["Assay"]) /\
    forall x c, box_plot t x "GMT" c = Raise ValueError.
Proof.
  destruct (@gmt_is_not_aggregated (reading two_rows) (first_render None)
              two_rows ["Assay"] "GMT" [1%nat]
              [4%nat; 5%nat; 6%nat; 7%nat; 8%nat])
    as (t & Hagg & Hc & Hgmt & Hno).
  - discriminate.
  - discriminate.
  - intros g [<- | []]. simpl. auto.
  - constructor; [intros [] | constructor].
  - reflexivity.
  - repeat constructor.
  - exists t. split; [exact Hagg |]. split; [exact Hc |].
    split; [exact Hgmt |].
    intros x c. apply Hno.
    + intros [E | []]. discriminate E.
    + simpl. auto.
Defined.

(** The box plot of the first run, grouped by Assay: the y-axis is GMT by
    default, and the block ends on its warning. *)
Example gmt_box_plot_grouped_by_assay :
  date_slider (toolkit := first_render None) two_days "box plot" "Testdate"
  = OK (Some 19358%Z, Some 19359%Z) /\
  create_chart (backend := reading two_days) (toolkit := first_render None)
    two_days "Box plot" 2 3 (Some ["Assay"]) 0 box_plot
    (mkWorld (Some (Some two_days)) [])
  = (OK tt, mkWorld (Some (Some two_days)) [Warning create_chart_msg]).
Proof. split; vm_compute; reflexivity. Qed.

(* ------------------------------------------------------------------------- *)
(** ** The custom block *)

Lemma dtype_of_text cs s : In (Str s) cs -> dtype_of cs = object.
Proof.
  intros Hin. unfold dtype_of.
  assert (N : forallb is_num_or_na cs = false).
  { destruct (forallb is_num_or_na cs) eqn:E; [| reflexivity].
    rewrite forallb_forall in E. specialize (E _ Hin). discriminate E. }
  assert (D : forallb is_date_or_na cs = false).
  { destruct (forallb is_date_or_na cs) eqn:E; [| reflexivity].
    rewrite forallb_forall in E. specialize (E _ Hin). discriminate E. }
  rewrite N, D. reflexivity.
Qed.


(** C2, as amended.  With a non-empty grouping the custom block counts the
    rows per group exactly when the selected y-axis is "Result", and
    averages the selected column for any other y-axis.  For grouping fields
    that are columns of the table, none listed twice: the count, when no
    field is called "Results Count", is the table the pre-defined blocks
    make for "Results Count", one row per distinct key combination with the
    number of rows under it, and the y-axis becomes "Results Count"; the
    average, when the selected column holds numbers and is not a grouping
    field, is the table of the grouping fields and the selected column
    only, with the float64 mean of that column over each group.  On a
    column that holds text the average ends on [TypeError], and on a column
    of numbers that is a grouping field on [ValueError]. *)
Theorem custom_count_follows_result `{Backend} (df : DataFrame)
  (group_by : list string) (ixs : list nat) :
  group_by <> [] ->
  mapM (loc df) group_by = OK ixs ->
  NoDup group_by ->
  (forall y_axis,
      custom_aggregate df group_by y_axis
      = if String.eqb y_axis "Result"
        then (t <- groupby_size df group_by "Results Count" ;;
              OK (t, "Results Count"))%result
        else (t <- groupby_agg_mean df group_by [y_axis] ;;
              OK (t, y_axis))%result) /\
  (~ In "Results Count" group_by ->
   exists ks,
     distinct_keys ixs (rows df) ks /\
     custom_aggregate df group_by "Result"
     = OK (mkDataFrame (group_by ++ ["Results Count"])
             (map (fun k => k ++ [count_cell
                                    (List.length
                                       (rows_of_key ixs k (rows df)))]) ks),
           "Results Count") /\
     aggregate df group_by "Results Count"
     = OK (mkDataFrame (group_by ++ ["Results Count"])
             (map (fun k => k ++ [count_cell
                                    (List.length
                                       (rows_of_key ixs k (rows df)))]) ks)))
  /\
  (forall y_axis i,
      y_axis <> "Result" ->
      numeric df y_axis i ->
      ~ In y_axis group_by ->
      exists ks t,
        distinct_keys ixs (rows df) ks /\
        custom_aggregate df group_by y_axis = OK (t, y_axis) /\
        columns t = group_by ++ [y_axis] /\
        Forall2
          (fun k r =>
             exists m,
               r = k ++ [m] /\
               is_mean_of m (map (at_col i) (rows_of_key ixs k (rows df))))
          ks (rows t)) /\
  (forall y_axis i,
      y_axis <> "Result" ->
      loc df y_axis = OK i ->
      ((exists r s, In r (rows df) /\ at_col i r = Str s) ->
       custom_aggregate df group_by y_axis = Raise TypeError) /\
      (forallb is_num_or_na (series df i) = true ->
       In y_axis group_by ->
       custom_aggregate df group_by y_axis = Raise ValueError)).
Proof.
  intros Hne Hix Hnd0.
  assert (Shape : forall y_axis,
             custom_aggregate df group_by y_axis
             = if String.eqb y_axis "Result"
               then (t <- groupby_size df group_by "Results Count" ;;
                     OK (t, "Results Count"))%result
               else (t <- groupby_agg_mean df group_by [y_axis] ;;
                     OK (t, y_axis))%result).
  { intros y_axis. unfold custom_aggregate.
    destruct group_by as [| g gs]; [congruence | reflexivity]. }
  split; [exact Shape |]. split; [| split].
  - intros Hrc.
    destruct (groupby_size_spec df group_by "Results Count" Hix
                (@nodupb_snoc _ _ Hnd0 Hrc))
      as (ks & Hks & Hsize & _).
    exists ks. split; [exact Hks |].
    rewrite Shape. unfold aggregate.
    replace (negb (is_empty group_by)) with true
      by (destruct group_by; [congruence | reflexivity]).
    change (String.eqb "Result" "Result") with true.
    change (String.eqb "Results Count" "Results Count") with true.
    cbv iota. rewrite Hsize. split; reflexivity.
  - intros y_axis i Hy Hnum Hin.
    assert (Hvs : mapM (mean_column df) [y_axis] = OK [(i, float64)]).
    { simpl. rewrite (mean_column_numeric Hnum). reflexivity. }
    destruct (groupby_agg_mean_spec df group_by [y_axis] Hix Hvs
                (@nodupb_snoc _ _ Hnd0 Hin))
      as (ks & Hks & Hagg).
    exists ks. eexists. split; [exact Hks |]. split; [| split].
    + rewrite Shape. apply String.eqb_neq in Hy. rewrite Hy, Hagg.
      reflexivity.
    + reflexivity.
    + simpl rows. clear Hagg Hks.
      induction ks as [| k ks IH]; simpl; [constructor |].
      constructor; [| exact IH].
      eexists. split; [reflexivity |]. apply mean_cell_is_mean.
  - intros y_axis i Hy Hi. rewrite Shape.
    apply String.eqb_neq in Hy. rewrite Hy.
    unfold groupby_agg_mean, groupby. rewrite Hix. simpl.
    unfold mean_column. rewrite Hi. simpl. split.
    + intros (r & s & Hr & Hs).
      rewrite (dtype_of_text (series df i) s); [reflexivity |].
      rewrite <- Hs. unfold series. apply in_map. exact Hr.
    + intros Hn Hin. unfold dtype_of. rewrite Hn. simpl.
      unfold reset_index.
      assert (D : nodupb (group_by ++ [y_axis]) = false).
      { destruct (nodupb (group_by ++ [y_axis])) eqn:E; [| reflexivity].
        exfalso. apply nodupb_NoDup in E. apply NoDup_remove_2 in E.
        apply E. rewrite app_nil_r. exact Hin. }
      rewrite D. reflexivity.
Qed.

Lemma custom_count_follows_result_witness :
  (exists ks,
      distinct_keys [1%nat] (rows two_rows) ks /\
      custom_aggregate (backend := reading two_rows) two_rows ["Assay"]
        "Result"
      = OK (mkDataFrame (["Assay"] ++ ["Results Count"])
              (map (fun k => k ++ [count_cell
                                     (List.length
                                        (rows_of_key [1%nat] k
                                           (rows two_rows)))]) ks),
            "Results Count") /\
      aggregate (backend := reading two_rows) two_rows ["Assay"]
        "Results Count"
      = OK (mkDataFrame (["Assay"] ++ ["Results Count"])
              (map (fun k => k ++ [count_cell
                                     (List.length
                                        (rows_of_key [1%nat] k
                                           (rows two_rows)))]) ks))) /\
  (exists ks t,
      distinct_keys [1%nat] (rows two_rows) ks /\
      custom_aggregate (backend := reading two_rows) two_rows ["Assay"] "GMT"
      = OK (t, "GMT") /\
      columns t = ["Assay"] ++ ["GMT"] /\
      Forall2
        (fun k r =>
           exists m,
             r = k ++ [m] /\
             is_mean_of (H := reading two_rows) m
               (map (at_col 3) (rows_of_key [1%nat] k (rows two_rows))))
        ks (rows t)) /\
  custom_aggregate (backend := reading two_rows) two_rows ["Assay"] "Result"
  = OK (mkDataFrame ["Assay"; "Results Count"] [[Str "A"; num 2]],
        "Results Count") /\
  custom_aggregate (backend := reading two_rows) two_rows ["Assay"] "GMT"
  = OK (mkDataFrame ["Assay"; "GMT"] [[Str "A"; num 15]], "GMT").
Proof.
  destruct (@custom_count_follows_result (reading two_rows) two_rows
              ["Assay"] [1%nat]) as (Shape & Count & Mean & _).
  - discriminate.
  - reflexivity.
  - constructor; [intros [] | constructor].
  - split; [| split; [| split]].
    + apply Count. intros [E | []]. discriminate E.
    + apply (Mean "GMT" 3%nat).
      * discriminate.
      * split; reflexivity.
      * intros [E | []]. discriminate E.
    + rewrite Shape. vm_compute. reflexivity.
    + rewrite Shape. vm_compute. reflexivity.
Defined.

(** C2, as stated, fails with "Result" for y-axis: the custom block counts
    the rows per group and renames the y-axis, where the claim has it
    average the selected column (which, being text, has no mean). *)
Lemma custom_count_on_result_column :
  "Result" <> "Results Count" /\
  custom_aggregate (backend := reading two_rows) two_rows ["Assay"] "Result"
  = OK (mkDataFrame ["Assay"; "Results Count"] [[Str "A"; num 2]],
        "Results Count") /\
  groupby_agg_mean (H := reading two_rows) two_rows ["Assay"] ["Result"]
  = Raise TypeError.
Proof.
  split; [discriminate |]. split; vm_compute; reflexivity.
Qed.

(** And with a y-axis that is called "Results Count" the custom block
    averages: two rows with 4 and 6 give 5, not the count 2. *)
Example custom_mean_of_results_count :
  custom_aggregate (backend := reading with_count_column) with_count_column
    ["Assay"] "Results Count"
  = OK (mkDataFrame ["Assay"; "Results Count"] [[Str "A"; num 5]],
        "Results Count").
Proof. vm_compute. reflexivity. Qed.

(* ------------------------------------------------------------------------- *)
(** ** The grouping options *)

Lemma pick_In options ixs group_by :
  pick options ixs = OK group_by ->
  forall g, In g group_by -> In g options.
Proof.
  unfold pick. revert group_by.
  induction ixs as [| i ixs IH]; simpl; intros group_by E g Hg.
  - inv E. contradiction.
  - apply rbind_OK in E. destruct E as (o & Eo & E).
    apply rbind_OK in E. destruct E as (os & Eos & E). inv E.
    destruct Hg as [<- | Hg].
    + destruct (nth_error options i) as [o' |] eqn:En; [| discriminate].
      inv Eo. apply (nth_error_In _ _ En).
    + apply (IH os Eos g Hg).
Qed.

Lemma pick_position options ixs group_by g :
  pick options ixs = OK group_by ->
  In g group_by ->
  exists i, In i ixs /\ nth_error options i = Some g.
Proof.
  unfold pick. revert group_by.
  induction ixs as [| i ixs IH]; simpl; intros group_by E Hg.
  - inv E. contradiction.
  - apply rbind_OK in E. destruct E as (o & Eo & E).
    apply rbind_OK in E. destruct E as (os & Eos & E). inv E.
    destruct (nth_error options i) as [o' |] eqn:En; [| discriminate].
    inv Eo. destruct Hg as [<- | Hg].
    + exists i. split; [left; reflexivity | exact En].
    + destruct (IH os Eos Hg) as (j & Hj & Ej).
      exists j. split; [right; exact Hj | exact Ej].
Qed.

Lemma pick_NoDup options ixs group_by :
  NoDup options -> NoDup ixs ->
  pick options ixs = OK group_by -> NoDup group_by.
Proof.
  intros Hopt. revert group_by.
  induction ixs as [| i ixs IH]; intros group_by Hnd E.
  - inv E. constructor.
  - unfold pick in E. simpl in E.
    apply rbind_OK in E. destruct E as (o & Eo & E).
    apply rbind_OK in E. destruct E as (os & Eos & E). inv E.
    inv Hnd. constructor; [| apply IH; assumption].
    destruct (nth_error options i) as [o' |] eqn:En; [| discriminate].
    inv Eo. intros Hin.
    destruct (@pick_position options ixs os o Eos Hin) as (j & Hj & Ej).
    assert (X : i = j).
    { apply (proj1 (NoDup_nth_error options) Hopt).
      - apply nth_error_Some. rewrite En. discriminate.
      - rewrite En, Ej. reflexivity. }
    subst j. contradiction.
Qed.

Lemma pick_total options ixs :
  (forall i, In i ixs -> (i < List.length options)%nat) ->
  exists group_by, pick options ixs = OK group_by.
Proof.
  intros Hin. unfold pick. apply mapM_total. intros i Hi.
  destruct (nth_error options i) as [o |] eqn:En.
  - exists o. reflexivity.
  - apply nth_error_None in En. specialize (Hin i Hi). lia.
Qed.

Lemma grouping_options_set y_axis o :
  In o (grouping_options y_axis) <-> In o enumeration.
Proof.
  unfold grouping_options, enumeration.
  destruct (String.eqb y_axis "Results Count"); simpl; intuition.
Qed.

(** C1, as amended.  The options of the grouping multiselect are the list
    Testdate, GMT, Assay, Result, with "Result" appended once more exactly
    when the y-axis is "Results Count"; as a set they are the four of the
    enumeration for every y-axis.  The selection is the list of the options
    at the positions that were picked, in the order they were picked (on a
    first run, the defaults in the order the caller gave them), so that
    every element of it is one of the four; it has no duplicates when the
    positions are distinct and the y-axis is not "Results Count". *)
Theorem grouping_options_and_selection (base : Toolkit) (key : string)
  (group : option (list string)) (color : nat) (y_axis : string)
  (picks : list nat) :
  grouping_options y_axis
  = enumeration ++ (if String.eqb y_axis "Results Count" then ["Result"]
                    else []) /\
  (forall o, In o (grouping_options y_axis) <-> In o enumeration) /\
  (forall group_by color_by,
      select_grouping (toolkit := picking base picks) key group color y_axis
      = OK (group_by, color_by) ->
      pick (grouping_options y_axis) picks = OK group_by /\
      (forall g, In g group_by -> In g enumeration) /\
      (NoDup picks -> y_axis <> "Results Count" -> NoDup group_by)) /\
  (forall color_by,
      (forall i, In i picks -> (i < List.length (grouping_options y_axis))%nat) ->
      @selectbox base "Color data by" ["Assay"; "Result"] color
        (Some (key ++ "_color_by")%string) = OK color_by ->
      exists group_by,
        select_grouping (toolkit := picking base picks) key group color y_axis
        = OK (group_by, color_by)) /\
  (forall uploaded defaults group_by color_by,
      group = Some defaults ->
      select_grouping (toolkit := first_render uploaded) key group color y_axis
      = OK (group_by, color_by) ->
      group_by = defaults /\ forall g, In g group_by -> In g enumeration).
Proof.
  split; [| split; [| split; [| split]]].
  - unfold grouping_options.
    destruct (String.eqb y_axis "Results Count"); simpl;
      rewrite ?app_nil_r; reflexivity.
  - apply grouping_options_set.
  - intros group_by color_by E. unfold select_grouping in E. simpl in E.
    apply rbind_OK in E. destruct E as (g & Eg & E).
    apply rbind_OK in E. destruct E as (c & Ec & E). inv E.
    split; [exact Eg |]. split.
    + intros g Hg. apply grouping_options_set with (y_axis := y_axis).
      apply (pick_In _ _ Eg g Hg).
    + intros Hnd Hy. apply (pick_NoDup (options := grouping_options y_axis))
                         with (ixs := picks); try assumption.
      unfold grouping_options. apply String.eqb_neq in Hy. rewrite Hy.
      apply nodupb_NoDup. reflexivity.
  - intros color_by Hin Hc.
    destruct (pick_total (grouping_options y_axis) picks Hin) as (g & Eg).
    exists g. unfold select_grouping. simpl. rewrite Eg. simpl.
    rewrite Hc. reflexivity.
  - intros uploaded defaults group_by color_by -> E.
    unfold select_grouping in E. simpl in E.
    apply rbind_OK in E. destruct E as (g & Eg & E).
    apply rbind_OK in E. destruct E as (c & Ec & E). inv E.
    unfold default_multiselect in Eg.
    destruct (forallb _ defaults) eqn:F; [| discriminate]. inv Eg.
    split; [reflexivity |].
    intros g Hg. rewrite forallb_forall in F. specialize (F g Hg).
    apply existsb_exists in F. destruct F as (o & Ho & Eo).
    apply String.eqb_eq in Eo. subst o.
    apply grouping_options_set with (y_axis := y_axis). exact Ho.
Qed.

Ltac no_sublist :=
  repeat match goal with
         | S : sublist _ _ |- _ => inversion S; clear S; subst
         end.

(** C1, as stated, fails on the bar chart of the first run: the block is
    called with the defaults Assay, Testdate, Result and the y-axis
    "Results Count", the selection is that list, and it is not the
    enumeration (nor the option list) with elements left out, since Assay
    comes before Testdate. *)
Lemma bar_chart_grouping_is_out_of_order :
  select_grouping (toolkit := first_render None) "bar chart"
    (Some ["Assay"; "Testdate"; "Result"]) 1 "Results Count"
  = OK (["Assay"; "Testdate"; "Result"], "Result") /\
  ~ sublist ["Assay"; "Testdate"; "Result"] enumeration /\
  ~ sublist ["Assay"; "Testdate"; "Result"] (grouping_options "Results Count").
Proof.
  split; [reflexivity |].
  split; intros S; unfold enumeration, grouping_options in S; simpl in S;
    no_sublist.
Qed.

(** With the y-axis on "Results Count" the option "Result" is there twice,
    at positions 3 and 4; picking both gives a selection with a duplicate. *)
Example result_picked_twice :
  select_grouping (toolkit := picking (first_render None) [3%nat; 4%nat])
    "bar chart" None 1 "Results Count"
  = OK (["Result"; "Result"], "Result") /\
  ~ NoDup ["Result"; "Result"].
Proof.
  split; [reflexivity |].
  intros N. inversion N as [| a l Hn _]; subst. apply Hn. left. reflexivity.
Qed.

(* ========================================================================= *)
(** * Further properties of the script *)

(** ** Loading *)

Lemma select_mask_filter {A} (p : A -> bool) (l : list A) :
  select_mask (map p l) l = filter p l.
Proof.
  induction l as [| a l IH]; simpl; [reflexivity |].
  destruct (p a); rewrite IH; reflexivity.
Qed.

Lemma select_mask_length {A B} (p : A -> bool) (l : list A) (r : list B) :
  List.length r = List.length l ->
  List.length (select_mask (map p l) r) = List.length (filter p l).
Proof.
  revert r; induction l as [| a l IH]; intros [| b r] E; simpl in *;
    try discriminate; [reflexivity |].
  destruct (p a); simpl; rewrite IH; auto.
Qed.

Lemma index_of_In name cols i : index_of name cols = Some i -> In name cols.
Proof.
  revert i; induction cols as [| c cols IH]; simpl; intros i E;
    [discriminate |].
  destruct (String.eqb_spec name c) as [-> | Hne]; [left; reflexivity |].
  destruct (index_of name cols) as [j |]; [| discriminate].
  right. apply (IH j). reflexivity.
Qed.

Lemma In_index_of name cols : In name cols -> exists i, index_of name cols = Some i.
Proof.
  induction cols as [| c cols IH]; simpl; [intros [] |].
  intros Hin. destruct (String.eqb_spec name c) as [-> | Hne].
  - exists O. reflexivity.
  - destruct Hin as [E | Hin]; [congruence |].
    destruct (IH Hin) as (i & ->). exists (S i). reflexivity.
Qed.

Lemma index_of_lt name cols i :
  index_of name cols = Some i -> (i < List.length cols)%nat.
Proof.
  revert i; induction cols as [| c cols IH]; simpl; intros i E;
    [discriminate |].
  destruct (String.eqb name c); [inv E; lia |].
  destruct (index_of name cols) as [j |]; [| discriminate].
  inv E. specialize (IH j eq_refl). lia.
Qed.

(** A cell of a column that is kept is found again under the column's new
    position. *)
Lemma select_mask_cell (p : string -> bool) cols (r : row) name j' :
  List.length r = List.length cols ->
  index_of name (select_mask (map p cols) cols) = Some j' ->
  exists j,
    index_of name cols = Some j /\
    at_col j' (select_mask (map p cols) r) = at_col j r.
Proof.
  revert r j'; induction cols as [| c cols IH]; intros [| b r] j' E Hj;
    simpl in *; try discriminate.
  destruct (p c) eqn:Pc; simpl in Hj.
  - destruct (String.eqb name c).
    + inv Hj. exists O. split; reflexivity.
    + destruct (index_of name (select_mask (map p cols) cols)) as [k |] eqn:Ek;
        [| discriminate].
      inv Hj. destruct (IH r k) as (j & Ej & Ec); [lia | reflexivity |].
      exists (S j). rewrite Ej. split; [reflexivity | exact Ec].
  - destruct (String.eqb_spec name c) as [-> | Hne].
    + exfalso. apply index_of_In in Hj. rewrite select_mask_filter in Hj.
      apply filter_In in Hj. destruct Hj as (_ & Hp). congruence.
    + destruct (IH r j') as (j & Ej & Ec); [lia | exact Hj |].
      exists (S j). rewrite Ej. split; [reflexivity | exact Ec].
Qed.

Lemma replace_at_length {A} i (v : A) l :
  List.length (replace_at i v l) = List.length l.
Proof.
  revert i; induction l as [| a l IH]; intros [| i]; simpl; auto.
Qed.

Lemma replace_at_other i j v (r : row) :
  j <> i -> at_col j (replace_at i v r) = at_col j r.
Proof.
  unfold at_col. revert i j; induction r as [| a r IH]; intros [| i] [| j] H;
    simpl; try reflexivity; try congruence.
  apply IH. congruence.
Qed.

Lemma replace_at_same i v (r : row) :
  at_col i (replace_at i v r) = if (i <? List.length r)%nat then v else NA.
Proof.
  unfold at_col. revert i; induction r as [| a r IH]; intros [| i]; simpl;
    try reflexivity.
  rewrite IH. reflexivity.
Qed.

Lemma to_datetime_OK `{Backend} c c' :
  to_datetime c = OK c' -> is_date_or_na c' = true.
Proof.
  destruct c as [| q | s | t]; simpl; intros E; try discriminate.
  - inv E. reflexivity.
  - destruct (is_nat_string s); [inv E; reflexivity |].
    destruct (strptime s); inv E. reflexivity.
  - inv E. reflexivity.
Qed.

Lemma to_datetime_Raise `{Backend} c e :
  to_datetime c = Raise e -> e = ValueError.
Proof.
  destruct c as [| q | s | t]; simpl; intros E; try discriminate.
  - inv E. reflexivity.
  - destruct (is_nat_string s); [discriminate E |].
    destruct (strptime s); inv E. reflexivity.
Qed.

Lemma mapM_Raise {A B} (f : A -> result B) (l : list A) e :
  mapM f l = Raise e -> exists a, In a l /\ f a = Raise e.
Proof.
  induction l as [| a l IH]; simpl; intros E; [discriminate |].
  destruct (f a) as [b | e'] eqn:Ea; simpl in E.
  - destruct (mapM f l) as [bs | e'']; simpl in E; [discriminate |].
    inv E. destruct (IH eq_refl) as (a' & Ha & Ea').
    exists a'. split; [right; exact Ha | exact Ea'].
  - inv E. exists a. split; [left; reflexivity | exact Ea].
Qed.

Lemma mapM_bad {A B} (f : A -> result B) (l : list A) a e :
  In a l -> f a = Raise e -> exists e', mapM f l = Raise e'.
Proof.
  intros Hin Ea. destruct (mapM f l) as [bs | e'] eqn:E;
    [| eexists; reflexivity].
  apply mapM_Forall2 in E. exfalso. clear - Hin Ea E.
  induction E as [| x b l bs Hx _ IH]; [contradiction |].
  destruct Hin as [-> | Hin]; [congruence | exact (IH Hin)].
Qed.

(** What [load_data] went through when it returns a table. *)
Lemma load_data_OK `{Backend} f df :
  load_data f = OK df ->
  exists raw i parsed,
    read_csv f ";" = OK raw /\
    index_of "Testdate" (filter named (columns raw)) = Some i /\
    mapM to_datetime
      (map (fun r => at_col i (select_mask (map named (columns raw)) r))
         (rows raw)) = OK parsed /\
    df = mkDataFrame (filter named (columns raw))
           (map (fun rc : row * cell => replace_at i (snd rc) (fst rc))
              (combine (map (select_mask (map named (columns raw))) (rows raw))
                 parsed)).
Proof.
  unfold load_data. intros E.
  apply rbind_OK in E. destruct E as (raw & Eraw & E).
  apply rbind_OK in E. destruct E as (i & Ei & E).
  apply rbind_OK in E. destruct E as (parsed & Ep & E).
  exists raw, i, parsed. split; [exact Eraw |].
  unfold loc in Ei. simpl in Ei.
  change (map (fun c => negb (String.prefix "Unnamed" c)) (columns raw))
    with (map named (columns raw)) in *.
  rewrite select_mask_filter in *.
  destruct (index_of "Testdate" (filter named (columns raw))) as [j |] eqn:Ej;
    [| discriminate].
  inv Ei. split; [reflexivity |]. split.
  - unfold series in Ep. simpl in Ep. rewrite map_map in Ep. exact Ep.
  - inv E. reflexivity.
Qed.

(** X1.  The table that [load_data] returns has the columns of the file
    whose names do not start with "Unnamed", in the order of the file, and
    no other; "Testdate" is one of them. *)
Theorem load_data_columns `{Backend} (f : string) (df : DataFrame) :
  load_data f = OK df ->
  exists raw,
    read_csv f ";" = OK raw /\
    columns df = filter named (columns raw) /\
    (forall c, In c (columns df) <->
               In c (columns raw) /\ String.prefix "Unnamed" c = false) /\
    In "Testdate" (columns df).
Proof.
  intros E. destruct (load_data_OK f E) as (raw & i & parsed & Er & Ei & _ & ->).
  exists raw. split; [exact Er |]. split; [reflexivity |]. split.
  - intros c. simpl. rewrite filter_In. unfold named.
    rewrite negb_true_iff. reflexivity.
  - simpl. apply (index_of_In _ _ Ei).
Qed.

Lemma load_data_columns_witness :
  exists raw,
    read_csv (Backend := parsing raw_file) "f" ";" = OK raw /\
    columns (mkDataFrame ["Testdate"; "Assay"; "GMT"]
               [ [Date (day 19358); Str "A"; num 10];
                 [NA; Str "B"; num 20] ])
    = filter named (columns raw) /\
    (forall c, In c ["Testdate"; "Assay"; "GMT"] <->
               In c (columns raw) /\ String.prefix "Unnamed" c = false) /\
    In "Testdate" ["Testdate"; "Assay"; "GMT"].
Proof.
  apply (@load_data_columns (parsing raw_file) "f"
           (mkDataFrame ["Testdate"; "Assay"; "GMT"]
              [ [Date (day 19358); Str "A"; num 10];
                [NA; Str "B"; num 20] ])).
  vm_compute. reflexivity.
Defined.

(** X2.  In a table that [load_data] returns the Testdate column holds
    timestamps and missing values only, so that neither the date bounds nor
    a date filter can raise on it. *)
Theorem load_data_testdate `{Backend} (f : string) (df : DataFrame) :
  load_data f = OK df ->
  exists i,
    testdate_loc df = OK i /\
    (exists bounds, date_bounds df = OK bounds) /\
    (forall lo hi, exists t, filter_by_date df lo hi = OK t).
Proof.
  intros E. destruct (load_data_OK f E) as (raw & i & parsed & _ & Ei & Ep & ->).
  assert (T : testdate_loc
                (mkDataFrame (filter named (columns raw))
                   (map (fun rc : row * cell =>
                           replace_at i (snd rc) (fst rc))
                      (combine
                         (map (select_mask (map named (columns raw)))
                            (rows raw)) parsed))) = OK i).
  { unfold testdate_loc, loc. simpl. rewrite Ei. simpl.
    match goal with |- (if ?b then _ else _) = _ =>
      assert (F : b = true); [| rewrite F; reflexivity] end.
    apply forallb_forall. intros c Hc. unfold series in Hc. simpl in Hc.
    rewrite map_map in Hc. apply in_map_iff in Hc.
    destruct Hc as ([r c'] & <- & Hrc). simpl.
    rewrite replace_at_same.
    destruct (i <? List.length r)%nat; [| reflexivity].
    apply in_combine_r in Hrc.
    apply mapM_Forall2 in Ep.
    clear - Ep Hrc. induction Ep as [| x y l l' Hxy _ IH]; [contradiction |].
    destruct Hrc as [<- | Hrc]; [apply (to_datetime_OK _ Hxy) | exact (IH Hrc)]. }
  exists i. split; [exact T |]. split.
  - unfold date_bounds. rewrite T. eexists; reflexivity.
  - intros lo hi. unfold filter_by_date. rewrite T. eexists; reflexivity.
Qed.

Lemma load_data_testdate_witness :
  exists i,
    testdate_loc (mkDataFrame ["Testdate"; "Assay"; "GMT"]
                    [ [Date (day 19358); Str "A"; num 10];
                      [NA; Str "B"; num 20] ]) = OK i /\
    (exists bounds,
        date_bounds (mkDataFrame ["Testdate"; "Assay"; "GMT"]
                       [ [Date (day 19358); Str "A"; num 10];
                         [NA; Str "B"; num 20] ]) = OK bounds) /\
    (forall lo hi, exists t,
        filter_by_date (mkDataFrame ["Testdate"; "Assay"; "GMT"]
                          [ [Date (day 19358); Str "A"; num 10];
                            [NA; Str "B"; num 20] ]) lo hi = OK t).
Proof.
  apply (@load_data_testdate (parsing raw_file) "f").
  vm_compute. reflexivity.
Defined.

Lemma option_map_S (x : option nat) i :
  option_map S x = Some i -> exists j, x = Some j /\ i = S j.
Proof.
  destruct x as [j |]; simpl; intros E; [| discriminate].
  inv E. exists j. split; reflexivity.
Qed.

Lemma index_of_inj a b l i :
  index_of a l = Some i -> index_of b l = Some i -> a = b.
Proof.
  revert i; induction l as [| c l IH]; simpl; intros i Ha Hb; [discriminate |].
  destruct (String.eqb_spec a c) as [-> | Hac];
    destruct (String.eqb_spec b c) as [-> | Hbc].
  - reflexivity.
  - inv Ha. destruct (index_of b l); discriminate.
  - inv Hb. destruct (index_of a l); discriminate.
  - apply option_map_S in Ha. destruct Ha as (j & Ej & ->).
    apply option_map_S in Hb. destruct Hb as (k & Ek & E).
    inv E. apply (IH k); assumption.
Qed.

Lemma Forall2_combine_map {A B C D} (P : A -> B -> Prop) (Q : A -> D -> Prop)
  (sel : A -> C) (g : C * B -> D) (l : list A) (l' : list B) :
  Forall2 P l l' ->
  (forall a b, In a l -> P a b -> Q a (g (sel a, b))) ->
  Forall2 Q l (map g (combine (map sel l) l')).
Proof.
  induction 1 as [| a b l l' Hab _ IH]; simpl; intros HQ; constructor.
  - apply HQ; [left; reflexivity | exact Hab].
  - apply IH. intros a' b' Ha'. apply HQ. right. exact Ha'.
Qed.

(** X3.  [load_data] keeps the rows of the file, one for one and in order.
    When every row of the file has one cell per column, so has every row of
    the table; a kept column other than Testdate holds the cells it held in
    the file, and the Testdate cell of a row is the parsed Testdate cell of
    the file's row. *)
Theorem load_data_rows `{Backend} (f : string) (raw df : DataFrame) :
  read_csv f ";" = OK raw ->
  load_data f = OK df ->
  rectangular raw ->
  rectangular df /\
  Forall2
    (fun r r' =>
       (forall c j', c <> "Testdate" ->
                     index_of c (columns df) = Some j' ->
                     exists j, index_of c (columns raw) = Some j /\
                               at_col j' r' = at_col j r) /\
       (exists j i, index_of "Testdate" (columns raw) = Some j /\
                    index_of "Testdate" (columns df) = Some i /\
                    to_datetime (at_col j r) = OK (at_col i r')))
    (rows raw) (rows df).
Proof.
  intros Er E Hrect.
  destruct (load_data_OK f E) as (raw' & i & parsed & Er' & Ei & Ep & ->).
  rewrite Er in Er'. inv Er'. unfold rectangular in *. simpl.
  rewrite Forall_forall in Hrect.
  apply mapM_Forall2 in Ep.
  assert (Ep' : Forall2
                  (fun r c => to_datetime
                                (at_col i (select_mask
                                             (map named (columns raw')) r))
                              = OK c) (rows raw') parsed).
  { clear - Ep. remember (rows raw') as rs. clear Heqrs.
    revert parsed Ep. induction rs as [| r rs IH]; intros parsed Ep;
      inv Ep; constructor; auto. }
  clear Ep. split.
  - apply Forall_forall. intros r' Hr'. apply in_map_iff in Hr'.
    destruct Hr' as ([r0 c] & <- & Hrc). simpl. rewrite replace_at_length.
    apply in_combine_l in Hrc. apply in_map_iff in Hrc.
    destruct Hrc as (r & <- & Hr). apply select_mask_length. apply Hrect.
    exact Hr.
  - apply (Forall2_combine_map _ _ _ Ep'). simpl.
    intros r c Hr Hc. specialize (Hrect r Hr). split.
    + intros name j' Hname Hj'.
      assert (Hji : j' <> i).
      { intros ->. apply Hname. apply (index_of_inj _ _ _ Hj' Ei). }
      rewrite replace_at_other by exact Hji.
      rewrite <- select_mask_filter in Hj'.
      apply select_mask_cell; assumption.
    + rewrite <- select_mask_filter in Ei.
      destruct (select_mask_cell named (columns raw') r "Testdate" Hrect Ei)
        as (j & Ej & Ec).
      exists j, i. split; [exact Ej |].
      rewrite select_mask_filter in Ei. split; [exact Ei |].
      rewrite replace_at_same.
      assert (L : (i <? List.length
                          (select_mask (map named (columns raw')) r))%nat
                  = true).
      { apply Nat.ltb_lt. rewrite (select_mask_length named _ _ Hrect).
        apply (index_of_lt _ _ Ei). }
      rewrite L, <- Ec. exact Hc.
Qed.

Lemma load_data_rows_witness :
  rectangular (mkDataFrame ["Testdate"; "Assay"; "GMT"]
                 [ [Date (day 19358); Str "A"; num 10];
                   [NA; Str "B"; num 20] ]).
Proof.
  apply (@load_data_rows (parsing raw_file) "f" raw_file
           (mkDataFrame ["Testdate"; "Assay"; "GMT"]
              [ [Date (day 19358); Str "A"; num 10];
                [NA; Str "B"; num 20] ])).
  - reflexivity.
  - vm_compute. reflexivity.
  - repeat constructor.
Defined.

Lemma named_testdate : named "Testdate" = true.
Proof. reflexivity. Qed.

Lemma loc_missing df name :
  has_column df name = false -> loc df name = Raise (KeyError name).
Proof.
  intros Hc. unfold loc.
  destruct (index_of name (columns df)) as [i |] eqn:E; [| reflexivity].
  apply index_of_In in E. apply has_column_In in E. congruence.
Qed.

Lemma loc_present df name :
  has_column df name = true -> exists i, loc df name = OK i.
Proof.
  intros Hc. apply has_column_In in Hc. apply In_index_of in Hc.
  destruct Hc as (i & Ei). exists i. unfold loc. rewrite Ei. reflexivity.
Qed.

(** A file that loads has a Testdate cell that parses in every row. *)
Lemma load_data_parses_rows `{Backend} f raw df j r :
  read_csv f ";" = OK raw ->
  load_data f = OK df ->
  rectangular raw ->
  index_of "Testdate" (columns raw) = Some j ->
  In r (rows raw) ->
  exists c, to_datetime (at_col j r) = OK c.
Proof.
  intros Er E Hrect Ej Hr.
  destruct (load_data_OK f E) as (raw' & i & parsed & Er' & Ei & Ep & _).
  rewrite Er in Er'. inv Er'.
  unfold rectangular in Hrect. rewrite Forall_forall in Hrect.
  rewrite <- select_mask_filter in Ei.
  destruct (select_mask_cell named (columns raw') r "Testdate"
              (Hrect r Hr) Ei) as (j' & Ej' & Ec).
  rewrite Ej in Ej'. inv Ej'. rewrite <- Ec.
  apply mapM_Forall2 in Ep. clear - Ep Hr.
  remember (rows raw') as rs. clear Heqrs. revert parsed Ep.
  induction rs as [| r0 rs IH]; [contradiction |].
  intros parsed Ep. inv Ep. destruct Hr as [<- | Hr].
  - eexists. eassumption.
  - eapply IH; eassumption.
Qed.

(** X4.  When the file reads, [load_data] ends on [KeyError] for
    "Testdate" whenever no column of the file has that name, and on
    [ValueError] whenever some row has a Testdate cell that does not parse:
    text that is neither a date of the expected form nor one of the texts
    read as a missing date, or a number.  No table comes out of such a
    file. *)
Theorem load_data_failures `{Backend} (f : string) (raw : DataFrame) :
  read_csv f ";" = OK raw ->
  (~ In "Testdate" (columns raw) -> load_data f = Raise (KeyError "Testdate"))
  /\
  (forall j r,
      rectangular raw ->
      index_of "Testdate" (columns raw) = Some j ->
      In r (rows raw) ->
      (forall c, to_datetime (at_col j r) <> OK c) ->
      load_data f = Raise ValueError) /\
  (forall s, is_nat_string s = false -> strptime s = None ->
             forall c, to_datetime (Str s) <> OK c).
Proof.
  intros Er.
  assert (Shape : forall e, load_data f = Raise e ->
            (index_of "Testdate" (filter named (columns raw)) = None /\
             e = KeyError "Testdate") \/
            (exists i,
                index_of "Testdate" (filter named (columns raw)) = Some i /\
                mapM to_datetime
                  (map (fun r => at_col i (select_mask
                                             (map named (columns raw)) r))
                     (rows raw)) = Raise e)).
  { intros e. unfold load_data. rewrite Er. cbn [rbind]. unfold loc.
    cbn [columns rows].
    change (map (fun c => negb (String.prefix "Unnamed" c)) (columns raw))
      with (map named (columns raw)).
    rewrite select_mask_filter.
    destruct (index_of "Testdate" (filter named (columns raw))) as [i |];
      cbn [rbind].
    - unfold series. cbn [rows]. rewrite map_map.
      destruct (mapM to_datetime _) as [parsed | e'] eqn:Ep; cbn [rbind];
        intros E; inv E.
      right. exists i. split; [reflexivity | exact Ep].
    - intros E; inv E. left. split; reflexivity. }
  split; [| split].
  - intros Hno. unfold load_data. rewrite Er. cbn [rbind]. unfold loc.
    cbn [columns rows].
    change (map (fun c => negb (String.prefix "Unnamed" c)) (columns raw))
      with (map named (columns raw)).
    rewrite select_mask_filter.
    destruct (index_of "Testdate" (filter named (columns raw))) as [i |] eqn:Ei;
      [| reflexivity].
    exfalso. apply Hno. apply index_of_In in Ei. apply filter_In in Ei.
    apply Ei.
  - intros j r Hrect Ej Hr Hbad.
    destruct (load_data f) as [df | e] eqn:E.
    + exfalso.
      destruct (@load_data_parses_rows _ f raw df j r Er E Hrect Ej Hr)
        as (c & Hc).
      exact (Hbad _ Hc).
    + destruct (Shape e eq_refl) as [(Ei & _) | (i & _ & Ep)].
      * exfalso. apply index_of_In in Ej.
        assert (X : In "Testdate" (filter named (columns raw)))
          by (apply filter_In; split; [exact Ej | reflexivity]).
        apply In_index_of in X. destruct X as (k & Ek). congruence.
      * apply mapM_Raise in Ep. destruct Ep as (c & _ & Ec).
        rewrite (to_datetime_Raise _ Ec). reflexivity.
  - intros s Hs Hp c. simpl. rewrite Hs, Hp. discriminate.
Qed.

Lemma load_data_failures_witness :
  load_data (backend := parsing raw_bad_date) "f" = Raise ValueError.
Proof.
  destruct (@load_data_failures (parsing raw_bad_date) "f" raw_bad_date
              eq_refl) as (_ & Bad & Text).
  apply (Bad 1%nat [num 0; Str "2023-01-01"; Str "A"; num 10]).
  - repeat constructor.
  - reflexivity.
  - left. reflexivity.
  - apply Text; reflexivity.
Defined.

(* ------------------------------------------------------------------------- *)
(** ** Runs without a table *)

Lemma upload_first `{Backend} `{Toolkit} w f df :
  loaded_data w = None \/ loaded_data w = Some None ->
  file_uploader "Choose a CSV file" = Some f ->
  load_data f = OK df ->
  upload w
  = (OK tt, mkWorld (Some (Some df))
              (screen w ++ [Toast "File uploaded successfully!"])).
Proof.
  intros Hw Hf Hl.
  unfold upload, bind, get_loaded_data, set_loaded_data, ret, lift, emit.
  rewrite Hf.
  destruct Hw as [E | E]; rewrite E; cbn -[load_data];
    rewrite ?E; cbn -[load_data]; rewrite Hl; reflexivity.
Qed.

Lemma upload_failed `{Backend} `{Toolkit} w f e :
  loaded_data w = None \/ loaded_data w = Some None ->
  file_uploader "Choose a CSV file" = Some f ->
  load_data f = Raise e ->
  upload w = (Raise e, mkWorld (Some None) (screen w)).
Proof.
  intros Hw Hf Hl.
  unfold upload, bind, get_loaded_data, set_loaded_data, ret, lift, emit.
  rewrite Hf.
  destruct Hw as [E | E]; rewrite E; cbn -[load_data];
    rewrite ?E; cbn -[load_data]; rewrite Hl; try reflexivity.
  destruct w as [ld sc]. simpl in *. subst ld. reflexivity.
Qed.

Lemma upload_nothing `{Backend} `{Toolkit} w :
  loaded_data w = None \/ loaded_data w = Some None ->
  file_uploader "Choose a CSV file" = None ->
  upload w = (OK tt, mkWorld (Some None) (screen w)).
Proof.
  intros Hw Hf.
  unfold upload, bind, get_loaded_data, set_loaded_data, ret, lift, emit.
  rewrite Hf.
  destruct Hw as [E | E]; rewrite E; simpl; rewrite ?E; try reflexivity.
  destruct w as [ld sc]. simpl in *. subst ld. reflexivity.
Qed.

(** X5.  Until a file has parsed, a run draws nothing.  Without a file it
    returns normally; with a file that [load_data] rejects it ends on the
    exception of [load_data], which nothing catches.  Either way the store
    holds no table afterwards, so that the next upload is read: a session
    in which a rejected file is followed by one that parses ends with the
    table of the second. *)
Theorem nothing_is_drawn_without_a_table (backend : Backend) (w : world) :
  loaded_data w = None \/ loaded_data w = Some None ->
  (forall toolkit : Toolkit,
      file_uploader "Choose a CSV file" = None ->
      script w = (OK tt, mkWorld (Some None) (screen w))) /\
  (forall (toolkit : Toolkit) f e,
      file_uploader "Choose a CSV file" = Some f ->
      load_data f = Raise e ->
      script w = (Raise e, mkWorld (Some None) (screen w))) /\
  (forall (first second : Toolkit) f f' e df,
      @file_uploader first "Choose a CSV file" = Some f ->
      load_data f = Raise e ->
      @file_uploader second "Choose a CSV file" = Some f' ->
      load_data f' = OK df ->
      session backend (loaded_data w) [first; second] = Some (Some df)).
Proof.
  intros Hw. split; [| split].
  - intros toolkit Hf. unfold script, bind.
    rewrite (upload_nothing w Hw Hf). reflexivity.
  - intros toolkit f e Hf Hl. unfold script, bind.
    rewrite (upload_failed w Hw Hf Hl). reflexivity.
  - intros first second f f' e df Hf Hl Hf' Hl'.
    unfold session. simpl. unfold rerun at 2. unfold script at 1, bind.
    rewrite (@upload_failed backend first (mkWorld (loaded_data w) []) f e
               Hw Hf Hl).
    simpl. unfold rerun, script, bind at 1.
    rewrite (@upload_first backend second (mkWorld (Some None) []) f' df
               (or_intror eq_refl) Hf' Hl').
    rewrite keeps_dashboard. reflexivity.
Qed.

Lemma nothing_is_drawn_without_a_table_witness :
  session (choosy raw_file) None
    [first_render (Some "bad.csv"); first_render (Some "good.csv")]
  = Some (Some (mkDataFrame ["Testdate"; "Assay"; "GMT"]
                  [ [Date (day 19358); Str "A"; num 10];
                    [NA; Str "B"; num 20] ])).
Proof.
  destruct (@nothing_is_drawn_without_a_table (choosy raw_file)
              (mkWorld None []) (or_introl eq_refl)) as (_ & _ & Retry).
  apply (Retry (first_render (Some "bad.csv"))
           (first_render (Some "good.csv")) "bad.csv" "good.csv" ValueError).
  - reflexivity.
  - reflexivity.
  - reflexivity.
  - vm_compute. reflexivity.
Defined.

(* ------------------------------------------------------------------------- *)
(** ** The metrics *)

Lemma dashboard_loaded `{Backend} `{Toolkit} w df :
  loaded_data w = Some (Some df) ->
  script w
  = (emit (Toast "Loading dashboard...") ;;; metrics df ;;; charts df)%script w.
Proof.
  intros E. unfold script, bind at 1. rewrite (upload_loaded w E).
  unfold dashboard, bind at 1, get_loaded_data. rewrite E. reflexivity.
Qed.

(** X6.  The metrics are not inside any [try]: on a loaded table without
    an "Assay" column, or without a "GMT" column, the run ends on the
    [KeyError] of that column, with the metrics drawn so far on the page
    and no chart block run, neither a figure nor a warning. *)
Theorem metrics_failure_ends_the_run `{Backend} `{Toolkit} (w : world)
  (df : DataFrame) :
  loaded_data w = Some (Some df) ->
  (has_column df "Assay" = false ->
   script w
   = (Raise (KeyError "Assay"),
      added w [Toast "Loading dashboard...";
               Metric "Total Number of Samples"
                 (count_cell (List.length (rows df)))])) /\
  (forall i,
      loc df "Assay" = OK i ->
      has_column df "GMT" = false ->
      script w
      = (Raise (KeyError "GMT"),
         added w [Toast "Loading dashboard...";
                  Metric "Total Number of Samples"
                    (count_cell (List.length (rows df)));
                  Metric "Number of Assays"
                    (count_cell (nunique (series df i)))])).
Proof.
  intros E. split.
  - intros Ha. rewrite (dashboard_loaded w E).
    unfold metrics, bind, emit, lift. rewrite (loc_missing _ _ Ha).
    unfold added. simpl. rewrite <- app_assoc. reflexivity.
  - intros i Hi Hg. rewrite (dashboard_loaded w E).
    unfold metrics, bind, emit, lift. rewrite Hi, (loc_missing _ _ Hg).
    unfold added. simpl. rewrite <- !app_assoc. reflexivity.
Qed.

Lemma metrics_failure_ends_the_run_witness :
  script (backend := reading no_result) (toolkit := first_render None)
    (mkWorld (Some (Some (mkDataFrame ["Testdate"] []))) [])
  = (Raise (KeyError "Assay"),
     added (mkWorld (Some (Some (mkDataFrame ["Testdate"] []))) [])
       [Toast "Loading dashboard...";
        Metric "Total Number of Samples" (count_cell 0)]).
Proof.
  apply (@metrics_failure_ends_the_run (reading no_result) (first_render None)
           (mkWorld (Some (Some (mkDataFrame ["Testdate"] []))) [])
           (mkDataFrame ["Testdate"] []) eq_refl).
  reflexivity.
Defined.

Lemma nodup_length {A} (d : forall x y : A, {x = y} + {x <> y}) (l : list A) :
  (List.length (nodup d l) <= List.length l)%nat.
Proof.
  induction l as [| a l IH]; simpl; [lia |].
  destruct (in_dec d a l); simpl; lia.
Qed.

Lemma filter_length_le {A} (p : A -> bool) (l : list A) :
  (List.length (filter p l) <= List.length l)%nat.
Proof.
  induction l as [| a l IH]; simpl; [lia |].
  destruct (p a); simpl; lia.
Qed.

Lemma nunique_le cs : (nunique cs <= List.length cs)%nat.
Proof.
  unfold nunique, present.
  eapply Nat.le_trans; [apply nodup_length |].
  rewrite length_map. apply filter_length_le.
Qed.

Lemma present_numeric cs c :
  forallb is_num_or_na cs = true ->
  In c (present cs) -> exists q, c = Num q /\ In (Num q) cs.
Proof.
  intros Hn Hc. unfold present in Hc. apply filter_In in Hc.
  destruct Hc as (Hc & Hna). rewrite forallb_forall in Hn.
  specialize (Hn c Hc). destruct c as [| q | s | t]; try discriminate.
  exists q. split; [reflexivity | exact Hc].
Qed.

Lemma fold_cell_min l a :
  (forall c, In c l -> exists q, c = Num q) ->
  exists m,
    fold_left cell_min l (Num a) = Num m /\
    In (Num m) (Num a :: l) /\
    (m <= a)%Q /\
    forall q, In (Num q) l -> (m <= q)%Q.
Proof.
  revert a; induction l as [| c l IH]; intros a Hl; simpl.
  - exists a. split; [reflexivity |]. split; [left; reflexivity |].
    split; [apply Qle_refl | intros q []].
  - destruct (Hl c (or_introl eq_refl)) as (b & ->).
    unfold cell_min at 2. simpl.
    destruct (Qcompare a b) eqn:Cab.
    + destruct (IH a) as (m & Em & Hin & Hma & Hall);
        [intros; apply Hl; right; assumption |].
      exists m. split; [exact Em |]. split.
      * destruct Hin as [E | Hin]; [left; exact E | right; right; exact Hin].
      * split; [exact Hma |]. intros q [E | Hq]; [| apply Hall; exact Hq].
        inv E. apply Qeq_alt in Cab. rewrite <- Cab. exact Hma.
    + destruct (IH a) as (m & Em & Hin & Hma & Hall);
        [intros; apply Hl; right; assumption |].
      exists m. split; [exact Em |]. split.
      * destruct Hin as [E | Hin]; [left; exact E | right; right; exact Hin].
      * split; [exact Hma |]. intros q [E | Hq]; [| apply Hall; exact Hq].
        inv E. apply Qlt_alt in Cab. apply Qlt_le_weak in Cab.
        apply (Qle_trans _ _ _ Hma Cab).
    + destruct (IH b) as (m & Em & Hin & Hmb & Hall);
        [intros; apply Hl; right; assumption |].
      exists m. split; [exact Em |]. split.
      * right. exact Hin.
      * apply Qgt_alt in Cab. split.
        -- apply Qlt_le_weak in Cab. apply (Qle_trans _ _ _ Hmb Cab).
        -- intros q [E | Hq]; [| apply Hall; exact Hq]. inv E. exact Hmb.
Qed.

Lemma fold_cell_max l a :
  (forall c, In c l -> exists q, c = Num q) ->
  exists m,
    fold_left cell_max l (Num a) = Num m /\
    In (Num m) (Num a :: l) /\
    (a <= m)%Q /\
    forall q, In (Num q) l -> (q <= m)%Q.
Proof.
  revert a; induction l as [| c l IH]; intros a Hl; simpl.
  - exists a. split; [reflexivity |]. split; [left; reflexivity |].
    split; [apply Qle_refl | intros q []].
  - destruct (Hl c (or_introl eq_refl)) as (b & ->).
    unfold cell_max at 2. simpl.
    destruct (Qcompare a b) eqn:Cab.
    + destruct (IH a) as (m & Em & Hin & Hma & Hall);
        [intros; apply Hl; right; assumption |].
      exists m. split; [exact Em |]. split.
      * destruct Hin as [E | Hin]; [left; exact E | right; right; exact Hin].
      * split; [exact Hma |]. intros q [E | Hq]; [| apply Hall; exact Hq].
        inv E. apply Qeq_alt in Cab. rewrite <- Cab. exact Hma.
    + destruct (IH b) as (m & Em & Hin & Hmb & Hall);
        [intros; apply Hl; right; assumption |].
      exists m. split; [exact Em |]. split.
      * right. exact Hin.
      * apply Qlt_alt in Cab. split.
        -- apply Qlt_le_weak in Cab. apply (Qle_trans _ _ _ Cab Hmb).
        -- intros q [E | Hq]; [| apply Hall; exact Hq]. inv E. exact Hmb.
    + destruct (IH a) as (m & Em & Hin & Hma & Hall);
        [intros; apply Hl; right; assumption |].
      exists m. split; [exact Em |]. split.
      * destruct Hin as [E | Hin]; [left; exact E | right; right; exact Hin].
      * split; [exact Hma |]. intros q [E | Hq]; [| apply Hall; exact Hq].
        inv E. apply Qgt_alt in Cab. apply Qlt_le_weak in Cab.
        apply (Qle_trans _ _ _ Cab Hma).
Qed.

Lemma present_In cs q : In (Num q) cs -> In (Num q) (present cs).
Proof. intros H. unfold present. apply filter_In. split; [exact H | reflexivity]. Qed.

Lemma reduce_min_numeric text cs :
  forallb is_num_or_na cs = true ->
  exists lo,
    reduce cell_min text cs = OK lo /\
    ((forall q, ~ In (Num q) cs) -> lo = NA) /\
    (forall q, In (Num q) cs ->
               exists a, lo = Num a /\ In (Num a) cs /\ (a <= q)%Q).
Proof.
  intros Hn. unfold reduce, dtype_of. rewrite Hn.
  destruct (present cs) as [| c cs'] eqn:Ep.
  - exists NA. split; [reflexivity |]. split; [reflexivity |].
    intros q Hq. apply present_In in Hq. rewrite Ep in Hq. contradiction.
  - assert (Hc : forall x, In x (c :: cs') -> exists q, x = Num q /\ In (Num q) cs).
    { intros x Hx. rewrite <- Ep in Hx. apply (present_numeric _ _ Hn Hx). }
    destruct (Hc c (or_introl eq_refl)) as (a & -> & Ha).
    destruct (fold_cell_min cs' a) as (m & Em & Hin & Hma & Hall).
    { intros x Hx. destruct (Hc x (or_intror Hx)) as (q & -> & _).
      exists q. reflexivity. }
    exists (Num m). split; [rewrite Em; reflexivity |]. split.
    + intros Hno. exfalso. exact (Hno a Ha).
    + intros q Hq. exists m. split; [reflexivity |]. split.
      * destruct (Hc (Num m) Hin) as (q' & E & Hq'). inv E. exact Hq'.
      * apply present_In in Hq. rewrite Ep in Hq.
        destruct Hq as [E | Hq]; [inv E; exact Hma | apply Hall; exact Hq].
Qed.

Lemma reduce_max_numeric text cs :
  forallb is_num_or_na cs = true ->
  exists hi,
    reduce cell_max text cs = OK hi /\
    ((forall q, ~ In (Num q) cs) -> hi = NA) /\
    (forall q, In (Num q) cs ->
               exists b, hi = Num b /\ In (Num b) cs /\ (q <= b)%Q).
Proof.
  intros Hn. unfold reduce, dtype_of. rewrite Hn.
  destruct (present cs) as [| c cs'] eqn:Ep.
  - exists NA. split; [reflexivity |]. split; [reflexivity |].
    intros q Hq. apply present_In in Hq. rewrite Ep in Hq. contradiction.
  - assert (Hc : forall x, In x (c :: cs') -> exists q, x = Num q /\ In (Num q) cs).
    { intros x Hx. rewrite <- Ep in Hx. apply (present_numeric _ _ Hn Hx). }
    destruct (Hc c (or_introl eq_refl)) as (a & -> & Ha).
    destruct (fold_cell_max cs' a) as (m & Em & Hin & Hma & Hall).
    { intros x Hx. destruct (Hc x (or_intror Hx)) as (q & -> & _).
      exists q. reflexivity. }
    exists (Num m). split; [rewrite Em; reflexivity |]. split.
    + intros Hno. exfalso. exact (Hno a Ha).
    + intros q Hq. exists m. split; [reflexivity |]. split.
      * destruct (Hc (Num m) Hin) as (q' & E & Hq'). inv E. exact Hq'.
      * apply present_In in Hq. rewrite Ep in Hq.
        destruct Hq as [E | Hq]; [inv E; exact Hma | apply Hall; exact Hq].
Qed.

(** X7.  On a loaded table with an "Assay" column and a "GMT" column of
    numbers the four metrics are drawn, in order: the number of rows, the
    number of distinct assays, which is at most the number of rows, and
    the least and the greatest GMT, each a value of the column between
    which every GMT of the table lies; both are missing when the column
    has no value. *)
Theorem metrics_values `{Backend} (df : DataFrame) (i j : nat) (w : world) :
  loc df "Assay" = OK i ->
  numeric df "GMT" j ->
  exists lo hi,
    metrics df w
    = (OK tt,
       added w [Metric "Total Number of Samples"
                  (count_cell (List.length (rows df)));
                Metric "Number of Assays"
                  (count_cell (nunique (series df i)));
                Metric "Minimum GMT" lo; Metric "Maximum GMT" hi]) /\
    (nunique (series df i) <= List.length (rows df))%nat /\
    ((forall q, ~ In (Num q) (series df j)) -> lo = NA /\ hi = NA) /\
    (forall q, In (Num q) (series df j) ->
               exists a b,
                 lo = Num a /\ hi = Num b /\
                 In (Num a) (series df j) /\ In (Num b) (series df j) /\
                 (a <= q)%Q /\ (q <= b)%Q).
Proof.
  intros Hi (Hj & Hn).
  destruct (reduce_min_numeric object_min _ Hn) as (lo & Elo & Hlo0 & Hlo).
  destruct (reduce_max_numeric object_max _ Hn) as (hi & Ehi & Hhi0 & Hhi).
  exists lo, hi. split; [| split; [| split]].
  - unfold metrics, bind, emit, lift. rewrite Hi, Hj, Elo, Ehi.
    unfold added. simpl. rewrite <- !app_assoc. reflexivity.
  - eapply Nat.le_trans; [apply nunique_le |].
    unfold series. rewrite length_map. lia.
  - intros Hno. split; [apply Hlo0 | apply Hhi0]; exact Hno.
  - intros q Hq. destruct (Hlo q Hq) as (a & Ea & Ha & Haq).
    destruct (Hhi q Hq) as (b & Eb & Hb & Hqb).
    exists a, b. repeat split; assumption.
Qed.

Lemma metrics_values_witness :
  exists lo hi,
    metrics (backend := reading two_rows) two_rows (mkWorld None [])
    = (OK tt,
       added (mkWorld None [])
         [Metric "Total Number of Samples"
            (count_cell (List.length (rows two_rows)));
          Metric "Number of Assays"
            (count_cell (nunique (series two_rows 1)));
          Metric "Minimum GMT" lo; Metric "Maximum GMT" hi]) /\
    (nunique (series two_rows 1) <= List.length (rows two_rows))%nat /\
    ((forall q, ~ In (Num q) (series two_rows 3)) -> lo = NA /\ hi = NA) /\
    (forall q, In (Num q) (series two_rows 3) ->
               exists a b,
                 lo = Num a /\ hi = Num b /\
                 In (Num a) (series two_rows 3) /\
                 In (Num b) (series two_rows 3) /\
                 (a <= q)%Q /\ (q <= b)%Q).
Proof.
  apply (@metrics_values (reading two_rows) two_rows 1%nat 3%nat
           (mkWorld None [])).
  - reflexivity.
  - split; reflexivity.
Defined.

(* ------------------------------------------------------------------------- *)
(** ** More on dates *)

Lemma filter_filter {A} (p q : A -> bool) (l : list A) :
  filter q (filter p l) = filter (fun a => p a && q a) l.
Proof.
  induction l as [| a l IH]; simpl; [reflexivity |].
  destruct (p a); simpl; [destruct (q a) |]; rewrite IH; reflexivity.
Qed.

Lemma between_both l1 h1 l2 h2 c :
  between (Some l1) (Some h1) c && between (Some l2) (Some h2) c
  = between (Some (Z.max l1 l2)) (Some (Z.min h1 h2)) c.
Proof.
  destruct c as [| q | s | t]; try reflexivity. simpl.
  destruct (Z.leb_spec l1 (date_of t)), (Z.leb_spec (date_of t) h1),
    (Z.leb_spec l2 (date_of t)), (Z.leb_spec (date_of t) h2),
    (Z.leb_spec (Z.max l1 l2) (date_of t)),
    (Z.leb_spec (date_of t) (Z.min h1 h2)); simpl; try reflexivity; lia.
Qed.

(** X8.  Two date filters in a row are one filter by the overlap of the two
    ranges, so that the order of two filters does not matter. *)
Theorem filter_by_date_twice (df t : DataFrame) (l1 h1 l2 h2 : Z) :
  filter_by_date df (Some l1) (Some h1) = OK t ->
  filter_by_date t (Some l2) (Some h2)
  = filter_by_date df (Some (Z.max l1 l2)) (Some (Z.min h1 h2)) /\
  (forall t', filter_by_date df (Some l2) (Some h2) = OK t' ->
              filter_by_date t' (Some l1) (Some h1)
              = filter_by_date t (Some l2) (Some h2)).
Proof.
  assert (Two : forall d a b c e u,
             filter_by_date d (Some a) (Some b) = OK u ->
             filter_by_date u (Some c) (Some e)
             = filter_by_date d (Some (Z.max a c)) (Some (Z.min b e))).
  { intros d a b c e u E. unfold filter_by_date in E.
    apply rbind_OK in E. destruct E as (i & Ei & E). inv E.
    unfold filter_by_date.
    rewrite (@testdate_loc_filter d i _ Ei), Ei. simpl. do 2 f_equal.
    rewrite filter_filter. apply filter_ext. intros r. apply between_both. }
  intros E. split; [apply Two; exact E |].
  intros t' E'. rewrite (Two _ _ _ _ _ _ E), (Two _ _ _ _ _ _ E').
  rewrite (Z.max_comm l2 l1), (Z.min_comm h2 h1). reflexivity.
Qed.

Lemma filter_by_date_twice_witness :
  filter_by_date two_rows (Some 19358%Z) (Some 19400%Z)
  = OK two_rows /\
  filter_by_date two_rows (Some 19000%Z) (Some 19358%Z)
  = filter_by_date two_rows (Some (Z.max 19358 19000))
      (Some (Z.min 19400 19358)).
Proof.
  split; [reflexivity |].
  apply (@filter_by_date_twice two_rows two_rows 19358 19400 19000 19358
           eq_refl).
Defined.

Lemma fold_min_In l a : In (fold_left Z.min l a) (a :: l).
Proof.
  revert a; induction l as [| b l IH]; simpl; intros a; [left; reflexivity |].
  destruct (IH (Z.min a b)) as [E | Hin].
  - rewrite <- E. destruct (Z.min_spec a b) as [(_ & ->) | (_ & ->)]; auto.
  - right. right. exact Hin.
Qed.

Lemma fold_max_In l a : In (fold_left Z.max l a) (a :: l).
Proof.
  revert a; induction l as [| b l IH]; simpl; intros a; [left; reflexivity |].
  destruct (IH (Z.max a b)) as [E | Hin].
  - rewrite <- E. destruct (Z.max_spec a b) as [(_ & ->) | (_ & ->)]; auto.
  - right. right. exact Hin.
Qed.

Lemma stamps_of_In cs t : In t (stamps_of cs) -> In (Date t) cs.
Proof.
  induction cs as [| c cs IH]; simpl; [intros [] |].
  destruct c as [| q | s | u]; try (intros H; right; apply IH; exact H).
  intros [-> | H]; [left; reflexivity | right; apply IH; exact H].
Qed.

(** X9.  The bounds that [date_slider] takes from a table are both missing
    when no row has a Testdate; otherwise they are the calendar dates of
    two rows of the table, the first not after the second, and the date of
    every row lies between them. *)
Theorem date_bounds_are_attained (df : DataFrame) (i : nat) :
  testdate_loc df = OK i ->
  exists lo hi,
    date_bounds df = OK (lo, hi) /\
    ((forall r t, In r (rows df) -> at_col i r <> Date t) ->
     lo = None /\ hi = None) /\
    (forall r t,
        In r (rows df) -> at_col i r = Date t ->
        exists a b ra rb ta tb,
          lo = Some a /\ hi = Some b /\
          In ra (rows df) /\ at_col i ra = Date ta /\ date_of ta = a /\
          In rb (rows df) /\ at_col i rb = Date tb /\ date_of tb = b /\
          (a <= date_of t <= b)%Z).
Proof.
  intros Hloc. unfold date_bounds. rewrite Hloc. simpl.
  do 2 eexists. split; [reflexivity |]. split.
  - intros Hno.
    destruct (stamps_of (series df i)) as [| t ts] eqn:E;
      [split; reflexivity |].
    exfalso. assert (Hin : In t (stamps_of (series df i)))
      by (rewrite E; left; reflexivity).
    apply stamps_of_In in Hin. unfold series in Hin.
    apply in_map_iff in Hin. destruct Hin as (r & Er & Hr).
    exact (Hno r t Hr Er).
  - intros r t Hr Et.
    assert (Hin : In t (stamps_of (series df i))).
    { apply in_stamps_of. rewrite <- Et. unfold series. apply in_map.
      exact Hr. }
    destruct (stamps_of (series df i)) as [| t0 ts] eqn:E; [contradiction |].
    simpl.
    pose proof (fold_min_In ts t0) as Hmin.
    pose proof (fold_max_In ts t0) as Hmax.
    rewrite <- E in Hmin, Hmax.
    apply stamps_of_In in Hmin. apply stamps_of_In in Hmax.
    unfold series in Hmin, Hmax.
    apply in_map_iff in Hmin. destruct Hmin as (ra & Era & Hra).
    apply in_map_iff in Hmax. destruct Hmax as (rb & Erb & Hrb).
    exists (date_of (fold_left Z.min ts t0)), (date_of (fold_left Z.max ts t0)),
      ra, rb, (fold_left Z.min ts t0), (fold_left Z.max ts t0).
    repeat split; try assumption; try reflexivity.
    + apply date_of_mono. destruct (fold_min_le ts t0) as (H1 & H2).
      destruct Hin as [<- | Hin]; [exact H1 | apply H2; exact Hin].
    + apply date_of_mono. destruct (fold_max_ge ts t0) as (H1 & H2).
      destruct Hin as [<- | Hin]; [exact H1 | apply H2; exact Hin].
Qed.

Lemma date_bounds_are_attained_witness :
  exists lo hi,
    date_bounds blank_date = OK (lo, hi) /\
    lo = Some 19358%Z /\ hi = Some 19358%Z.
Proof.
  destruct (@date_bounds_are_attained blank_date 0%nat eq_refl)
    as (lo & hi & E & _ & _).
  exists lo, hi. split; [exact E |].
  vm_compute in E. inv E. split; reflexivity.
Defined.

(* ------------------------------------------------------------------------- *)
(** ** More on aggregation *)

Lemma cell_compare_antisym a b :
  cell_compare b a = CompOpp (cell_compare a b).
Proof.
  destruct a as [| p | s | t], b as [| q | u | v]; simpl; try reflexivity.
  - symmetry. apply Qcompare_antisym.
  - apply String.compare_antisym.
  - apply Z.compare_antisym.
Qed.

Lemma key_compare_antisym k1 k2 :
  key_compare k2 k1 = CompOpp (key_compare k1 k2).
Proof.
  revert k2; induction k1 as [| a k1 IH]; intros [| b k2]; simpl;
    try reflexivity.
  rewrite (cell_compare_antisym a b).
  destruct (cell_compare a b); simpl; [apply IH | reflexivity | reflexivity].
Qed.

Lemma insert_group_sorted g gs :
  Sorted (fun a b : group => key_le (fst a) (fst b)) gs ->
  Sorted (fun a b : group => key_le (fst a) (fst b)) (insert_group g gs).
Proof.
  induction gs as [| g' gs IH]; simpl; intros S.
  - repeat constructor.
  - inversion S as [| x l S' Hd]; subst.
    destruct (key_compare (fst g) (fst g')) eqn:C.
    + constructor; [exact S |]. constructor. unfold key_le. congruence.
    + constructor; [exact S |]. constructor. unfold key_le. congruence.
    + constructor; [apply IH; exact S' |].
      destruct gs as [| g'' gs]; simpl.
      * constructor. unfold key_le.
        rewrite (key_compare_antisym (fst g) (fst g')), C. discriminate.
      * destruct (key_compare (fst g) (fst g'')).
        -- constructor. unfold key_le.
           rewrite (key_compare_antisym (fst g) (fst g')), C. discriminate.
        -- constructor. unfold key_le.
           rewrite (key_compare_antisym (fst g) (fst g')), C. discriminate.
        -- constructor. inversion Hd; subst. assumption.
Qed.

Lemma sort_groups_sorted gs :
  Sorted (fun a b : group => key_le (fst a) (fst b)) (sort_groups gs).
Proof.
  induction gs as [| g gs IH]; simpl; [constructor |].
  apply insert_group_sorted. exact IH.
Qed.

Lemma key_of_length ixs r k :
  key_of ixs r = Some k -> List.length k = List.length ixs.
Proof.
  unfold key_of. destruct (existsb is_na _); [discriminate |].
  intros E; inv E. rewrite !length_map. reflexivity.
Qed.

Lemma key_of_present ixs r k c :
  key_of ixs r = Some k -> In c k -> c <> NA.
Proof.
  unfold key_of.
  destruct (existsb is_na (map (fun i => at_col i r) ixs)) eqn:E;
    [discriminate |].
  intros X; inv X. intros Hc. apply in_map_iff in Hc.
  destruct Hc as (c0 & <- & Hc0). intros Hna.
  assert (X : existsb is_na (map (fun i => at_col i r) ixs) = true).
  { apply existsb_exists. exists c0. split; [exact Hc0 |].
    destruct c0; try discriminate; reflexivity. }
  congruence.
Qed.

Lemma firstn_key (k vs : list cell) : firstn (List.length k) (k ++ vs) = k.
Proof.
  rewrite firstn_app, Nat.sub_diag, firstn_all. simpl. apply app_nil_r.
Qed.

Lemma groupby_OK df group_by gs :
  groupby df group_by = OK gs ->
  exists ixs,
    mapM (loc df) group_by = OK ixs /\
    List.length ixs = List.length group_by /\
    gs = sort_groups (group_rows ixs (rows df)).
Proof.
  unfold groupby. intros E. apply rbind_OK in E.
  destruct E as (ixs & Eix & E). inv E.
  exists ixs. split; [exact Eix |]. split; [| reflexivity].
  apply (mapM_length _ _ Eix).
Qed.

Lemma sorted_groups_keys ixs rs g :
  In g (sort_groups (group_rows ixs rs)) ->
  List.length (fst g) = List.length ixs /\
  (forall c, In c (fst g) -> c <> NA) /\
  snd g = rows_of_key ixs (fst g) rs /\
  (1 <= List.length (snd g) <= List.length rs)%nat.
Proof.
  intros Hg.
  destruct (sorted_groups_spec ixs rs) as ((_ & Hks) & Hsnd & _).
  assert (Hk : In (fst g) (keys (sort_groups (group_rows ixs rs))))
    by (apply in_map; exact Hg).
  apply Hks in Hk. destruct Hk as (r & Hr & Ek).
  split; [apply (key_of_length _ _ Ek) |].
  split; [intros c Hc; apply (key_of_present _ _ Ek Hc) |].
  split; [apply Hsnd; exact Hg |].
  rewrite (Hsnd g Hg). split.
  - assert (Hin : In r (rows_of_key ixs (fst g) rs))
      by (apply in_rows_of_key; split; assumption).
    destruct (rows_of_key ixs (fst g) rs); [contradiction | simpl; lia].
  - apply filter_length_le.
Qed.

(** X10.  The table of counts that a pre-defined block makes for a
    non-empty grouping has one cell per column in every row; a row is a key
    without a missing value followed by its count, the count is at least 1
    and at most the number of input rows, and the rows come in the order of
    their keys. *)
Theorem count_table_shape `{Backend} (df t : DataFrame)
  (group_by : list string) :
  group_by <> [] ->
  aggregate df group_by "Results Count" = OK t ->
  rectangular t /\
  (forall r, In r (rows t) ->
             exists k n,
               r = k ++ [count_cell n] /\
               List.length k = List.length group_by /\
               (forall c, In c k -> c <> NA) /\
               (1 <= n <= List.length (rows df))%nat) /\
  Sorted (fun r r' => key_le (firstn (List.length group_by) r)
                        (firstn (List.length group_by) r')) (rows t).
Proof.
  intros Hne E. unfold aggregate in E.
  destruct group_by as [| g0 gs0] eqn:Eg; [congruence |].
  rewrite <- Eg in *. clear Eg g0 gs0. simpl in E.
  replace (negb (is_empty group_by)) with true in E
    by (destruct group_by; [congruence | reflexivity]).
  unfold groupby_size in E. apply rbind_OK in E. destruct E as (gs & Egs & E).
  apply groupby_OK in Egs. destruct Egs as (ixs & _ & Hlen & ->).
  unfold reset_index in E.
  destruct (nodupb (group_by ++ ["Results Count"])); [| discriminate].
  inv E. unfold rectangular. simpl.
  assert (Rows : forall r,
             In r (map (fun g : group =>
                          fst g ++ [count_cell (List.length (snd g))])
                     (sort_groups (group_rows ixs (rows df)))) ->
             exists k n,
               r = k ++ [count_cell n] /\
               List.length k = List.length group_by /\
               (forall c, In c k -> c <> NA) /\
               (1 <= n <= List.length (rows df))%nat).
  { intros r Hr. apply in_map_iff in Hr. destruct Hr as (g & <- & Hg).
    destruct (sorted_groups_keys ixs (rows df) g Hg) as (Hl & Hna & _ & Hn).
    exists (fst g), (List.length (snd g)).
    split; [reflexivity |]. split; [congruence |]. split; assumption. }
  split; [| split].
  - apply Forall_forall. intros r Hr.
    destruct (Rows r Hr) as (k & n & -> & Hl & _).
    rewrite !length_app, Hl. reflexivity.
  - exact Rows.
  - assert (S : Sorted (fun a b : group => key_le (fst a) (fst b))
                  (sort_groups (group_rows ixs (rows df))))
      by apply sort_groups_sorted.
    assert (K : forall g, In g (sort_groups (group_rows ixs (rows df))) ->
                          List.length (fst g) = List.length group_by).
    { intros g Hg.
      destruct (sorted_groups_keys ixs (rows df) g Hg) as (Hl & _).
      congruence. }
    revert S K. generalize (sort_groups (group_rows ixs (rows df))).
    intros l S. induction S as [| a l S IH Hd]; intros K; simpl;
      constructor.
    + apply IH. intros g Hg. apply K. right. exact Hg.
    + destruct Hd as [| b l Hab]; simpl; constructor.
      rewrite <- (K a (or_introl eq_refl)) at 1.
      rewrite <- (K b (or_intror (or_introl eq_refl))).
      rewrite !firstn_key. exact Hab.
Qed.

Lemma count_table_shape_witness :
  rectangular
    (mkDataFrame ["Assay"; "Results Count"] [[Str "A"; num 2]]) /\
  Sorted (fun r r' => key_le (firstn (List.length ["Assay"]) r)
                        (firstn (List.length ["Assay"]) r'))
    [[Str "A"; num 2]].
Proof.
  destruct (@count_table_shape (reading blank_assay) blank_assay
              (mkDataFrame ["Assay"; "Results Count"] [[Str "A"; num 2]])
              ["Assay"]) as (R & _ & S).
  - discriminate.
  - vm_compute. reflexivity.
  - split; [exact R | exact S].
Defined.

Lemma mapM_first_bad {A B} (f : A -> result B) (pre post : list A) a e :
  (forall c, In c pre -> exists b, f c = OK b) ->
  f a = Raise e ->
  mapM f (pre ++ a :: post) = Raise e.
Proof.
  induction pre as [| c pre IH]; simpl; intros Hpre Ha.
  - rewrite Ha. reflexivity.
  - destruct (Hpre c (or_introl eq_refl)) as (b & ->). simpl.
    rewrite IH; [reflexivity | | exact Ha].
    intros c' Hc'. apply Hpre. right. exact Hc'.
Qed.

(** X11.  With a non-empty grouping the aggregation of a pre-defined block
    fails, for every y-axis, when a grouping field is not a column of the
    table and the list of fields is not as long as the table, with the
    [KeyError] of the first such field; and it fails whenever a field is
    listed twice in a list of columns of the table, with [ValueError] when
    the y-axis is "Results Count".  It hands on no table in these cases. *)
Theorem aggregate_rejects_bad_grouping `{Backend} (df : DataFrame)
  (group_by : list string) (y_axis : string) :
  (forall pre g post,
      group_by = pre ++ g :: post ->
      List.length group_by <> List.length (rows df) ->
      (forall c, In c pre -> has_column df c = true) ->
      has_column df g = false ->
      aggregate df group_by y_axis = Raise (KeyError g)) /\
  (~ NoDup group_by ->
   (forall c, In c group_by -> has_column df c = true) ->
   (exists e, aggregate df group_by y_axis = Raise e) /\
   aggregate df group_by "Results Count" = Raise ValueError).
Proof.
  assert (Ne : ~ NoDup group_by -> negb (is_empty group_by) = true).
  { intros Hd. destruct group_by; [| reflexivity].
    exfalso. apply Hd. constructor. }
  split.
  - intros pre g post -> _ Hpre Hg.
    assert (G : groupby df (pre ++ g :: post) = Raise (KeyError g)).
    { unfold groupby. rewrite (@mapM_first_bad _ _ (loc df) pre post g (KeyError g)).
      - reflexivity.
      - intros c Hc. apply loc_present. apply Hpre. exact Hc.
      - apply loc_missing. exact Hg. }
    unfold aggregate.
    replace (negb (is_empty (pre ++ g :: post))) with true
      by (destruct pre; reflexivity).
    destruct (String.eqb y_axis "Results Count").
    + unfold groupby_size. rewrite G. reflexivity.
    + unfold groupby_agg_mean. rewrite G. reflexivity.
  - intros Hd Hall.
    destruct (mapM_total (loc df) group_by) as (ixs & Hix).
    { intros c Hc. apply loc_present. apply Hall. exact Hc. }
    split.
    + unfold aggregate. rewrite (Ne Hd).
      destruct (String.eqb y_axis "Results Count").
      * unfold groupby_size, groupby. rewrite Hix. cbn [rbind].
        unfold reset_index. rewrite (@nodupb_dup _ _ Hd).
        eexists; reflexivity.
      * unfold groupby_agg_mean, groupby. rewrite Hix. cbn [rbind].
        destruct (mapM (mean_column df)
                    ["Age Days"; "Age Weeks"; "Min Titer"; "Max Titer";
                     "Mean Titer"]) as [vs | e]; cbn [rbind];
          [| eexists; reflexivity].
        unfold reset_index. rewrite (@nodupb_dup _ _ Hd).
        eexists; reflexivity.
    + unfold aggregate. rewrite (Ne Hd). simpl.
      unfold groupby_size, groupby. rewrite Hix. simpl.
      unfold reset_index. rewrite (@nodupb_dup _ _ Hd). reflexivity.
Qed.

(** The bar chart of the first run on a table of two samples without the
    Result column: three grouping fields, two rows. *)
Example result_column_is_missing :
  aggregate (backend := reading no_result) no_result
    ["Assay"; "Testdate"; "Result"] "Results Count"
  = Raise (KeyError "Result").
Proof. reflexivity. Qed.

(** "Result" picked twice, as the option list of the y-axis "Results Count"
    allows: the aggregation ends on [ValueError]. *)
Example result_twice_is_rejected :
  aggregate (backend := reading two_rows) two_rows ["Result"; "Result"]
    "Results Count" = Raise ValueError.
Proof. reflexivity. Qed.

(** X12.  In the custom block, with a non-empty grouping whose fields are
    columns of the table and a y-axis other than "Result": a y-axis column
    that holds text in some row cannot be averaged and the aggregation ends
    on [TypeError]; a y-axis of numbers that is itself a grouping field
    ends on [ValueError], the column being there already when the keys are
    put back. *)
Theorem custom_mean_failures `{Backend} (df : DataFrame)
  (group_by : list string) (y_axis : string) (ixs : list nat) (i : nat) :
  group_by <> [] ->
  y_axis <> "Result" ->
  mapM (loc df) group_by = OK ixs ->
  loc df y_axis = OK i ->
  (forall r s, In r (rows df) -> at_col i r = Str s ->
               custom_aggregate df group_by y_axis = Raise TypeError) /\
  (forallb is_num_or_na (series df i) = true ->
   In y_axis group_by ->
   custom_aggregate df group_by y_axis = Raise ValueError).
Proof.
  intros Hne Hy Hix Hi.
  assert (Shape : custom_aggregate df group_by y_axis
                  = (t <- groupby_agg_mean df group_by [y_axis] ;;
                     OK (t, y_axis))%result).
  { unfold custom_aggregate. destruct group_by; [congruence |]. simpl.
    apply String.eqb_neq in Hy. rewrite Hy. reflexivity. }
  rewrite Shape. unfold groupby_agg_mean, groupby. rewrite Hix. simpl.
  unfold mean_column. rewrite Hi. simpl. split.
  - intros r s Hr Hs.
    rewrite (dtype_of_text (series df i) s); [reflexivity |].
    rewrite <- Hs. unfold series. apply in_map. exact Hr.
  - intros Hn Hin. unfold dtype_of. rewrite Hn. simpl.
    unfold reset_index.
    assert (D : nodupb (group_by ++ [y_axis]) = false).
    { destruct (nodupb (group_by ++ [y_axis])) eqn:E; [| reflexivity].
      exfalso. apply nodupb_NoDup in E. apply NoDup_remove_2 in E.
      apply E. rewrite app_nil_r. exact Hin. }
    rewrite D. reflexivity.
Qed.

Lemma custom_mean_failures_witness :
  (forall r s, In r (rows two_rows) -> at_col 1 r = Str s ->
               custom_aggregate (backend := reading two_rows) two_rows
                 ["Result"] "Assay" = Raise TypeError) /\
  (forallb is_num_or_na (series two_rows 1) = true ->
   In "Assay" ["Result"] ->
   custom_aggregate (backend := reading two_rows) two_rows ["Result"] "Assay"
   = Raise ValueError).
Proof.
  apply (@custom_mean_failures (reading two_rows) two_rows ["Result"] "Assay"
           [2%nat] 1%nat).
  - discriminate.
  - discriminate.
  - reflexivity.
  - reflexivity.
Defined.

(* ------------------------------------------------------------------------- *)
(** ** Charts *)

Lemma px_not_unbound k df x y color fac :
  px k df x y color fac <> Raise UnboundLocalError.
Proof.
  unfold px.
  destruct (has_column df x && has_column df y && has_column df color
            && has_facet df fac); discriminate.
Qed.

(** X13.  Every chart type that the custom block offers has its branch: the
    figure, when the constructor returns one, is of the type that was
    selected, and [fig] is never left unbound.  For any other name no
    branch is taken and the block ends on [UnboundLocalError]. *)
Theorem custom_dispatch_covers_the_options (chart : string) (df : DataFrame)
  (x_axis y_axis color_by : string) :
  (In chart chart_types ->
   custom_dispatch chart df x_axis y_axis color_by <> Raise UnboundLocalError
   /\
   forall fig, custom_dispatch chart df x_axis y_axis color_by = OK fig ->
               kind_label (fig_kind fig) = chart /\ fig_data fig = df) /\
  (~ In chart chart_types ->
   custom_dispatch chart df x_axis y_axis color_by = Raise UnboundLocalError).
Proof.
  split.
  - unfold chart_types. simpl.
    intros [<- | [<- | [<- | [<- | [<- | []]]]]];
      unfold custom_dispatch; simpl;
      unfold line_chart, scatter_plot, bar_chart, box_plot, violin_plot;
      (split;
       [ apply px_not_unbound
       | intros fig E; apply px_data in E;
         destruct E as (-> & -> & _); split; reflexivity ]).
  - intros Hno. unfold custom_dispatch.
    destruct (String.eqb_spec chart "Line Chart") as [-> | _];
      [exfalso; apply Hno; simpl; auto |].
    destruct (String.eqb_spec chart "Bar Chart") as [-> | _];
      [exfalso; apply Hno; simpl; auto |].
    destruct (String.eqb_spec chart "Box Plot") as [-> | _];
      [exfalso; apply Hno; simpl; auto |].
    destruct (String.eqb_spec chart "Violin Plot") as [-> | _];
      [exfalso; apply Hno; simpl; auto 6 |].
    destruct (String.eqb_spec chart "Scatter Plot") as [-> | _];
      [exfalso; apply Hno; simpl; auto |].
    reflexivity.
Qed.





Lemma filter_by_date_columns df lo hi t :
  filter_by_date df lo hi = OK t -> columns t = columns df.
Proof.
  unfold filter_by_date. intros E. apply rbind_OK in E.
  destruct E as (i & _ & E). inv E. reflexivity.
Qed.

(** X15.  "Results Count" is made by the aggregation only: in a pre-defined
    block with that y-axis and no grouping field, on a table that has no
    column of this name, no chart constructor finds its y column and the
    block ends on its warning. *)
Theorem results_count_needs_a_grouping `{Backend} `{Toolkit} (df : DataFrame)
  (chart : string) (x y : nat) (group : option (list string)) (color : nat)
  (f : DataFrame -> string -> string -> string -> result figure)
  (x_axis color_by : string) (w : world) :
  has_column df "Results Count" = false ->
  In f constructors ->
  checkbox ("Show " ++ lower chart)%string true = OK true ->
  select_param (lower chart) x y = OK (x_axis, "Results Count") ->
  select_grouping (lower chart) group color "Results Count"
  = OK ([], color_by) ->
  create_chart df chart x y group color f w
  = (OK tt, added w [Warning create_chart_msg]).
Proof.
  intros Hno Hf Hshow Hparam Hgroup. rewrite create_chart_run.
  assert (R : exists e,
             create_chart_figure df chart x y group color f = Raise e).
  { unfold create_chart_figure. rewrite Hshow. cbn [rbind].
    rewrite Hparam. cbn [rbind fst snd]. rewrite Hgroup. cbn [rbind fst snd].
    destruct (date_slider df (lower chart) x_axis) as [range | e];
      cbn [rbind]; [| eexists; reflexivity].
    destruct (text_input _ _ _) as [title | e]; cbn [rbind];
      [| eexists; reflexivity].
    destruct (slider _ _ _ _ _) as [height | e]; cbn [rbind];
      [| eexists; reflexivity].
    destruct (filter_by_date df (fst range) (snd range)) as [t | e] eqn:Ef;
      cbn [rbind]; [| eexists; reflexivity].
    unfold aggregate. cbn [is_empty negb rbind].
    rewrite (@constructor_without_y f t x_axis "Results Count" color_by Hf).
    - eexists; reflexivity.
    - unfold has_column in *. rewrite (filter_by_date_columns _ _ _ Ef).
      exact Hno. }
  destruct R as (e & ->). reflexivity.
Qed.

Lemma results_count_needs_a_grouping_witness :
  create_chart (backend := reading two_rows) (toolkit := first_render None)
    two_rows "Box plot" 2 4 None 0 box_plot (mkWorld None [])
  = (OK tt, added (mkWorld None []) [Warning create_chart_msg]).
Proof.
  apply (@results_count_needs_a_grouping (reading two_rows)
           (first_render None) two_rows "Box plot" 2 4 None 0 box_plot
           "Testdate" "Assay" (mkWorld None [])).
  - reflexivity.
  - simpl. auto.
  - reflexivity.
  - reflexivity.
  - reflexivity.
Defined.

(* ------------------------------------------------------------------------- *)
(** ** The first run on a complete table *)







Lemma canon_NA c : c <> NA -> canon c <> NA.
Proof. destruct c; simpl; congruence. Qed.







(** The same run on two samples of one day: the slider of the four blocks
    over Testdate has no range to offer, and only the scatter plot, over
    Age Days, is drawn. *)
Example first_run_on_one_day :
  exists f5,
    screen (snd (charts (backend := reading two_rows)
                   (toolkit := first_render None) two_rows (mkWorld None [])))
    = [Warning create_chart_msg; Warning create_chart_msg;
       Warning create_chart_msg; Warning create_chart_msg; Plot f5].
Proof. eexists. vm_compute. reflexivity. Qed.

(* ------------------------------------------------------------------------- *)
(** ** The table of means and the sample count *)

(** X17.  The table of means that a pre-defined block makes for a non-empty
    grouping and a y-axis other than "Results Count" has one cell per
    column in every row: a key without a missing value, then the five
    means; the rows come in the order of their keys, and there are at most
    as many of them as input rows. *)
Theorem mean_table_shape `{Backend} (df t : DataFrame)
  (group_by : list string) (y_axis : string) :
  group_by <> [] ->
  y_axis <> "Results Count" ->
  aggregate df group_by y_axis = OK t ->
  rectangular t /\
  (forall r, In r (rows t) ->
             exists k ms,
               r = k ++ ms /\
               List.length k = List.length group_by /\
               List.length ms = 5%nat /\
               (forall c, In c k -> c <> NA)) /\
  Sorted (fun r r' => key_le (firstn (List.length group_by) r)
                        (firstn (List.length group_by) r')) (rows t) /\
  (List.length (rows t) <= List.length (rows df))%nat.
Proof.
  intros Hne Hy E. unfold aggregate in E.
  replace (negb (is_empty group_by)) with true in E
    by (destruct group_by; [congruence | reflexivity]).
  apply String.eqb_neq in Hy. rewrite Hy in E.
  unfold groupby_agg_mean in E. apply rbind_OK in E.
  destruct E as (gs & Egs & E).
  apply groupby_OK in Egs. destruct Egs as (ixs & _ & Hlen & ->).
  apply rbind_OK in E. destruct E as (vs & Evs & E).
  apply mapM_length in Evs. simpl in Evs.
  unfold reset_index in E.
  destruct (nodupb _); [| discriminate]. inv E.
  unfold rectangular. simpl.
  set (gs := sort_groups (group_rows ixs (rows df))) in *.
  assert (Rows : forall r,
             In r (map (fun g : group =>
                          fst g ++ map (fun v : nat * dtype =>
                                          mean_cell (snd v)
                                            (map (at_col (fst v)) (snd g)))
                                       vs) gs) ->
             exists k ms,
               r = k ++ ms /\
               List.length k = List.length group_by /\
               List.length ms = 5%nat /\
               (forall c, In c k -> c <> NA)).
  { intros r Hr. apply in_map_iff in Hr. destruct Hr as (g & <- & Hg).
    destruct (sorted_groups_keys ixs (rows df) g Hg) as (Hl & Hna & _).
    do 2 eexists. split; [reflexivity |]. split; [congruence |].
    split; [rewrite length_map; exact Evs | exact Hna]. }
  split; [| split; [| split]].
  - apply Forall_forall. intros r Hr.
    destruct (Rows r Hr) as (k & ms & -> & Hl & Hm & _).
    rewrite !length_app, Hl, Hm. simpl. reflexivity.
  - exact Rows.
  - assert (S : Sorted (fun a b : group => key_le (fst a) (fst b)) gs)
      by apply sort_groups_sorted.
    assert (K : forall g, In g gs ->
                          List.length (fst g) = List.length group_by).
    { intros g Hg.
      destruct (sorted_groups_keys ixs (rows df) g Hg) as (Hl & _).
      congruence. }
    clear Rows. clearbody gs. revert K.
    induction S as [| a l S IH Hd]; intros K; simpl; constructor.
    + apply IH. intros g Hg. apply K. right. exact Hg.
    + destruct Hd as [| b l Hab]; simpl; constructor.
      rewrite <- (K a (or_introl eq_refl)) at 1.
      rewrite <- (K b (or_intror (or_introl eq_refl))).
      rewrite !firstn_key. exact Hab.
  - rewrite length_map.
    destruct (sorted_groups_spec ixs (rows df)) as (_ & Hsnd & Htot).
    fold gs in Hsnd, Htot.
    assert (L : (List.length gs <= total gs)%nat).
    { assert (P : forall g, In g gs -> (1 <= List.length (snd g))%nat).
      { intros g Hg.
        destruct (sorted_groups_keys ixs (rows df) g Hg) as (_ & _ & _ & Hn).
        lia. }
      clearbody gs. clear - P. induction gs as [| g gs IH]; simpl; [lia |].
      specialize (P g (or_introl eq_refl)) as Pg.
      assert (IH' : (List.length gs <= total gs)%nat)
        by (apply IH; intros g' Hg'; apply P; right; exact Hg').
      lia. }
    rewrite Htot in L. eapply Nat.le_trans; [exact L |].
    apply filter_length_le.
Qed.

Lemma mean_table_shape_witness :
  rectangular
    (mkDataFrame (["Assay"] ++ summary_columns)
       [[Str "A"; num 21; num 3; num 5; num 7; num 6]]) /\
  (List.length [[Str "A"; num 21; num 3; num 5; num 7; num 6]]
   <= List.length (rows two_rows))%nat.
Proof.
  destruct (@mean_table_shape (reading two_rows) two_rows
              (mkDataFrame (["Assay"] ++ summary_columns)
                 [[Str "A"; num 21; num 3; num 5; num 7; num 6]])
              ["Assay"] "Mean Titer") as (R & _ & _ & L).
  - discriminate.
  - discriminate.
  - vm_compute. reflexivity.
  - split; [exact R | exact L].
Defined.

Lemma metrics_starts_with_total `{Backend} df w :
  exists rest,
    snd (metrics df w)
    = added w (Metric "Total Number of Samples"
                 (count_cell (List.length (rows df))) :: rest).
Proof.
  unfold metrics, bind, emit, lift, added. simpl.
  destruct (loc df "Assay") as [i | e]; simpl;
    [| eexists; reflexivity].
  destruct (loc df "GMT") as [j | e]; simpl;
    [| eexists; rewrite <- !app_assoc; simpl; reflexivity].
  destruct (reduce cell_min object_min (series df j)) as [lo | e]; simpl;
    [| eexists; rewrite <- !app_assoc; simpl; reflexivity].
  destruct (reduce cell_max object_max (series df j)) as [hi | e]; simpl;
    eexists; rewrite <- !app_assoc; simpl; reflexivity.
Qed.

(** X18.  On the run in which a file is uploaded and parses, the table is
    stored and the page starts with the two toasts and the sample count,
    which is the number of rows of the file, whatever comes after it; and
    the run can end on an exception only through the metrics, never
    through a chart block. *)
Theorem upload_shows_the_row_count `{Backend} `{Toolkit} (w : world)
  (f : string) (raw df : DataFrame) :
  loaded_data w = None \/ loaded_data w = Some None ->
  file_uploader "Choose a CSV file" = Some f ->
  read_csv f ";" = OK raw ->
  load_data f = OK df ->
  exists r rest,
    script w
    = (r, mkWorld (Some (Some df))
            (screen w ++
             Toast "File uploaded successfully!" ::
             Toast "Loading dashboard..." ::
             Metric "Total Number of Samples"
               (count_cell (List.length (rows raw))) :: rest)) /\
    (forall e, r = Raise e ->
               fst (metrics df
                      (mkWorld (Some (Some df))
                         (screen w ++
                          [Toast "File uploaded successfully!";
                           Toast "Loading dashboard..."])))
               = Raise e).
Proof.
  intros Hw Hf Hr Hl.
  assert (Len : List.length (rows df) = List.length (rows raw)).
  { destruct (load_data_OK f Hl) as (raw' & i & parsed & Hr' & _ & Hp & ->).
    rewrite Hr in Hr'. inv Hr'. simpl.
    apply mapM_length in Hp. rewrite length_map in Hp.
    rewrite length_map, length_combine, length_map, Hp. apply Nat.min_id. }
  unfold script, bind at 1. rewrite (upload_first w Hw Hf Hl).
  unfold dashboard, bind at 1, get_loaded_data. cbn [loaded_data].
  unfold bind at 1, emit at 1. cbn [loaded_data screen].
  unfold bind at 1.
  replace ((screen w ++ [Toast "File uploaded successfully!"]) ++
           [Toast "Loading dashboard..."])
    with (screen w ++ [Toast "File uploaded successfully!";
                       Toast "Loading dashboard..."])
    by (rewrite <- app_assoc; reflexivity).
  set (w0 := mkWorld (Some (Some df))
               (screen w ++ [Toast "File uploaded successfully!";
                             Toast "Loading dashboard..."])).
  destruct (metrics_starts_with_total df w0) as (rest & Hs).
  pose proof (keeps_metrics df w0) as Hk.
  destruct (metrics df w0) as [r w1] eqn:Em. simpl in Hs, Hk. subst w1.
  rewrite Len. destruct r as [[] | e].
  - rewrite charts_run. do 2 eexists. split.
    + unfold added, w0. cbn [loaded_data screen].
      rewrite <- !app_assoc. simpl. reflexivity.
    + intros e X. discriminate X.
  - exists (Raise e), rest. split.
    + unfold added, w0. cbn [loaded_data screen].
      rewrite <- !app_assoc. simpl. reflexivity.
    + intros e' X. inv X. reflexivity.
Qed.

Lemma upload_shows_the_row_count_witness :
  exists r rest,
    script (backend := reading two_rows) (toolkit := first_render (Some "f"))
      (mkWorld None [])
    = (r, mkWorld (Some (Some two_rows))
            ([] ++
             Toast "File uploaded successfully!" ::
             Toast "Loading dashboard..." ::
             Metric "Total Number of Samples"
               (count_cell (List.length (rows two_rows))) :: rest)) /\
    (forall e, r = Raise e ->
               fst (metrics (backend := reading two_rows) two_rows
                      (mkWorld (Some (Some two_rows))
                         ([] ++
                          [Toast "File uploaded successfully!";
                           Toast "Loading dashboard..."])))
               = Raise e).
Proof.
  apply (@upload_shows_the_row_count (reading two_rows)
           (first_render (Some "f")) (mkWorld None []) "f" two_rows two_rows).
  - left. reflexivity.
  - reflexivity.
  - reflexivity.
  - vm_compute. reflexivity.
Defined.
